(** * A model of csplan's authentication and master-keypair actions

    Shallow embedding of [LoginActions] and [RegisterActions]
    (src/unnamed/part_001). The class's mutable fields, localStorage,
    the user store and the network form an explicit [World]; each method
    is a computation in a small state-and-exception monad [M]. Every
    observable effect (worker request, fetch, key import, decryption,
    storage write, message callback) is appended to the world's trace.
    The libraries the code calls (the argon2 worker, cs-crypto, the RSA
    helpers) are fields of an environment record [Env]. *)

From Stdlib Require Import String List ZArith Bool Lia.
Import ListNotations.
Open Scope string_scope.
Open Scope Z_scope.
Set Warnings "-register-all".

Definition bytes := list Byte.byte.

(** ** JSON values as [res.json()] returns them (integers only). *)

Inductive Json :=
| JNull
| JBool (b : bool)
| JNum (n : Z)
| JStr (s : string)
| JObj (fields : list (string * Json)).

(** A response body: parsed JSON, or text that [res.json()] rejects. *)
Inductive Body :=
| BJson (j : Json)
| BText (s : string).

(** ** JavaScript errors *)
Inductive JSError :=
| Error (msg : string)          (* new Error(msg) *)
| TypeError (what : string)
| SyntaxError                   (* res.json() on a body that is not JSON *)
| DataError                     (* WebCrypto importKey: bad raw key length *)
| OperationError                (* WebCrypto decrypt: bad counter block *)
| LibraryError (what : string)  (* a rejected promise of cs-crypto *)
| IdbError (name : string).     (* a failed IndexedDB request: req.error *)

(** Decimal rendering of integers, as [String(n)] does. *)
Fixpoint uint_to_string (d : Decimal.uint) : string :=
  match d with
  | Decimal.Nil => ""
  | Decimal.D0 d => "0" ++ uint_to_string d
  | Decimal.D1 d => "1" ++ uint_to_string d
  | Decimal.D2 d => "2" ++ uint_to_string d
  | Decimal.D3 d => "3" ++ uint_to_string d
  | Decimal.D4 d => "4" ++ uint_to_string d
  | Decimal.D5 d => "5" ++ uint_to_string d
  | Decimal.D6 d => "6" ++ uint_to_string d
  | Decimal.D7 d => "7" ++ uint_to_string d
  | Decimal.D8 d => "8" ++ uint_to_string d
  | Decimal.D9 d => "9" ++ uint_to_string d
  end.

Definition Z_to_string (n : Z) : string :=
  match Z.to_int n with
  | Decimal.Pos d => uint_to_string d
  | Decimal.Neg d => "-" ++ uint_to_string d
  end.

(** A property read [v.k]: [None] is [undefined]. JSON.parse keeps the
    last of duplicated keys. *)
Definition js_prop (fs : list (string * Json)) (k : string) : option Json :=
  option_map snd (find (fun p => String.eqb (fst p) k) (rev fs)).

(** Truthiness, for [a || b]. *)
Definition js_truthy (v : option Json) : bool :=
  match v with
  | None | Some JNull => false
  | Some (JBool b) => b
  | Some (JNum n) => negb (Z.eqb n 0)
  | Some (JStr s) => negb (String.eqb s "")
  | Some (JObj _) => true
  end.

(** [String(v)]. *)
Definition js_String (v : option Json) : string :=
  match v with
  | None => "undefined"
  | Some JNull => "null"
  | Some (JBool true) => "true"
  | Some (JBool false) => "false"
  | Some (JNum n) => Z_to_string n
  | Some (JStr s) => s
  | Some (JObj _) => "[object Object]"
  end.

(** ** Data model of part_001 *)

(** [Argon2HashParams]; [type] and [saltLen] are optional, the code
    only reads the three cost fields. *)
Record HashParams := mkHashParams {
  hp_type : option string;
  timeCost : Z;
  memoryCost : Z;
  threads : Z;
  saltLen : option Z
}.

(** [public hashParams] initialiser of [LoginActions]. *)
Definition default_hashParams : HashParams :=
  mkHashParams (Some "argon2i") 1 (128 * 1024) 1 (Some 16).

Definition hashParams_json (hp : HashParams) : Json :=
  JObj ((match hp_type hp with Some t => [("type", JStr t)] | None => [] end)
        ++ [("timeCost", JNum (timeCost hp)); ("memoryCost", JNum (memoryCost hp));
            ("threads", JNum (threads hp))]
        ++ (match saltLen hp with Some n => [("saltLen", JNum n)] | None => [] end)).

(** The body of an [Argon2_Actions.Hash2i] request. *)
Record Argon2Hash := mkArgon2Hash {
  a_password : string;
  a_salt : bytes;
  a_timeCost : Z;
  a_memoryCost : Z;
  a_threads : Z;
  hashLen : Z
}.

(** The worker's reply: a status code and an optional body. *)
Record Argon2Reply := mkArgon2Reply {
  reply_code : Z;
  reply_body : option bytes
}.

Definition ARGON2_OK : Z := 0.

(** All authkeys are 32 bytes long *)
Definition AUTHKEY_SIZE : Z := 32.

Definition CSRF_TOKEN_KEY : string := "CSRF-Token".

Inductive AuthConditions := Success | TOTPRequired.

Record Challenge := mkChallenge {
  c_id : string;
  c_data : string;
  c_salt : string;
  c_hashParams : HashParams
}.

Record AuthUser := mkAuthUser {
  u_email : string;
  u_password : string;
  u_totp : option Z
}.

(** What [userStore.login] receives. *)
Record User := mkUser {
  user_email : string;
  user_id : option Json
}.

(** WebCrypto keys, symbolically. *)
Inductive CryptoKey :=
| AesKey (alg : string) (material : bytes) (usages : list string)
| RsaPublic (n : nat)
| RsaPrivate (n : nat).

(** The record put in the IndexedDB store 'keys'. *)
Record KeysRecord := mkKeysRecord {
  k_id : option Json;
  k_publicKey : CryptoKey;
  k_privateKey : CryptoKey
}.

Record Request := mkRequest {
  rq_url : string;
  rq_method : string;
  rq_headers : list (string * string);
  rq_credentials_include : bool;
  rq_body : option Json
}.

Record Response := mkResponse {
  status : Z;
  body : Body
}.

(** Observable effects, in the order the code performs them. *)
Inductive Event :=
| EvMessage (s : string)                      (* this.onMessage(s) *)
| EvHash (r : Argon2Hash)                     (* worker.postMessage Hash2i *)
| EvFetch (r : Request)                       (* fetch(url, init) dispatched *)
| EvImportKey (material : option bytes) (alg : string) (usages : list string)
| EvDecrypt (alg : string) (key : CryptoKey) (counter : bytes) (length : Z) (data : bytes)
| EvSetItem (k v : string)                    (* localStorage.setItem *)
| EvLogin (u : User)                          (* userStore.login *)
| EvConsoleLog (s : string)
| EvIdbAdd (store : string) (r : KeysRecord). (* db.addToStore called *)

(** A call started without [await]; it runs after the caller's promise
    has settled. *)
Inductive Task :=
| TaskAuthRest (user : AuthUser) (reuseAuthKey : bool)
| TaskIdbAdd (store : string) (r : KeysRecord).

Record World := mkWorld {
  w_csrf : option string;           (* localStorage['CSRF-Token'] *)
  w_user : option User;             (* userStore *)
  w_hashParams : HashParams;        (* this.hashParams *)
  w_authKeyMaterial : option bytes; (* this.authKeyMaterial *)
  w_net : list Response;            (* responses the network delivers, in order *)
  w_nonce : nat;                    (* randomness consumed by key generation *)
  w_trace : list Event;
  w_pending : list Task;
  w_unhandled : list JSError;       (* unhandled promise rejections *)
  w_idb : list (string * KeysRecord) (* records stored in IndexedDB, with their store *)
}.

(** ** The libraries and the platform the code calls *)
Record Env := mkEnv {
  development : bool;                          (* process.env.NODE_ENV === 'development' *)
  argon2 : Argon2Hash -> Argon2Reply;          (* the argon2-wasm worker *)
  encode : bytes -> string;                    (* cs-crypto encode *)
  decode : string -> option bytes;             (* cs-crypto decode; None: it throws *)
  aes_ctr : bytes -> bytes -> Z -> bytes -> bytes; (* AES-CTR(key, counter, length, data) *)
  importKeyMaterial : bytes -> string -> option CryptoKey;      (* aes.importKeyMaterial *)
  rsa_generateKeypair : Z -> nat -> option (CryptoKey * CryptoKey);
  rsa_exportPublicKey : CryptoKey -> option string;
  rsa_importPublicKey : string -> option CryptoKey;
  rsa_wrapPrivateKey : CryptoKey -> CryptoKey -> option string;
  rsa_unwrapPrivateKey : string -> CryptoKey -> option CryptoKey;
  (* the IndexedDB write behind db.addToStore (whose body is not among the
     sources), given the records already stored: None when it succeeds,
     Some e when it fails with e (a key already present, a quota, ...) *)
  db_addToStore : list (string * KeysRecord) -> string -> KeysRecord -> option JSError
}.

(** ** A state and exception monad over [World] *)

Inductive Result (A : Type) :=
| Ok (a : A)
| Throw (e : JSError).
Arguments Ok {A} a.
Arguments Throw {A} e.

Definition M (A : Type) := World -> Result A * World.

Definition ret {A} (a : A) : M A := fun w => (Ok a, w).

Definition bind {A B} (m : M A) (k : A -> M B) : M B :=
  fun w => match m w with
           | (Ok a, w') => k a w'
           | (Throw e, w') => (Throw e, w')
           end.

Definition throw {A} (e : JSError) : M A := fun w => (Throw e, w).

Notation "x <- m ;; k" := (bind m (fun x => k))
  (at level 61, m at next level, right associativity).
Notation "m ;; k" := (bind m (fun _ => k)) (at level 61, right associativity).

Definition gets {A} (f : World -> A) : M A := fun w => (Ok (f w), w).
Definition modify (f : World -> World) : M unit := fun w => (Ok tt, f w).

Definition lift_option {A} (e : JSError) (o : option A) : M A :=
  match o with Some a => ret a | None => throw e end.

(** Field updates of the world. *)
Definition upd_csrf (v : option string) (w : World) : World :=
  mkWorld v (w_user w) (w_hashParams w) (w_authKeyMaterial w) (w_net w)
    (w_nonce w) (w_trace w) (w_pending w) (w_unhandled w) (w_idb w).
Definition upd_user (v : option User) (w : World) : World :=
  mkWorld (w_csrf w) v (w_hashParams w) (w_authKeyMaterial w) (w_net w)
    (w_nonce w) (w_trace w) (w_pending w) (w_unhandled w) (w_idb w).
Definition upd_hashParams (v : HashParams) (w : World) : World :=
  mkWorld (w_csrf w) (w_user w) v (w_authKeyMaterial w) (w_net w)
    (w_nonce w) (w_trace w) (w_pending w) (w_unhandled w) (w_idb w).
Definition upd_authKeyMaterial (v : option bytes) (w : World) : World :=
  mkWorld (w_csrf w) (w_user w) (w_hashParams w) v (w_net w)
    (w_nonce w) (w_trace w) (w_pending w) (w_unhandled w) (w_idb w).
Definition upd_net (v : list Response) (w : World) : World :=
  mkWorld (w_csrf w) (w_user w) (w_hashParams w) (w_authKeyMaterial w) v
    (w_nonce w) (w_trace w) (w_pending w) (w_unhandled w) (w_idb w).
Definition upd_nonce (v : nat) (w : World) : World :=
  mkWorld (w_csrf w) (w_user w) (w_hashParams w) (w_authKeyMaterial w) (w_net w)
    v (w_trace w) (w_pending w) (w_unhandled w) (w_idb w).
Definition upd_trace (v : list Event) (w : World) : World :=
  mkWorld (w_csrf w) (w_user w) (w_hashParams w) (w_authKeyMaterial w) (w_net w)
    (w_nonce w) v (w_pending w) (w_unhandled w) (w_idb w).
Definition upd_pending (v : list Task) (w : World) : World :=
  mkWorld (w_csrf w) (w_user w) (w_hashParams w) (w_authKeyMaterial w) (w_net w)
    (w_nonce w) (w_trace w) v (w_unhandled w) (w_idb w).
Definition upd_unhandled (v : list JSError) (w : World) : World :=
  mkWorld (w_csrf w) (w_user w) (w_hashParams w) (w_authKeyMaterial w) (w_net w)
    (w_nonce w) (w_trace w) (w_pending w) v (w_idb w).
Definition upd_idb (v : list (string * KeysRecord)) (w : World) : World :=
  mkWorld (w_csrf w) (w_user w) (w_hashParams w) (w_authKeyMaterial w) (w_net w)
    (w_nonce w) (w_trace w) (w_pending w) (w_unhandled w) v.

Definition emit (e : Event) : M unit :=
  modify (fun w => upd_trace (w_trace w ++ [e]) w).

(** [localStorage.setItem]; the code only writes the CSRF token key. *)
Definition setItem (k v : string) : M unit :=
  emit (EvSetItem k v) ;;
  modify (fun w => if String.eqb k CSRF_TOKEN_KEY then upd_csrf (Some v) w else w).

(** Modelled from the spec: the user store (stores/user, not among the
    sources) holds the identity given to its last [login]; reading
    [get(userStore).user.id] before any login throws. *)
Definition login (u : User) : M unit :=
  emit (EvLogin u) ;; modify (upd_user (Some u)).

Definition get_user_id : M (option Json) :=
  u <- gets w_user ;;
  lift_option (TypeError "Cannot read properties of null (reading 'id')")
    (option_map user_id u).

(** ** Network: [fetch] dispatches the request; awaiting it takes the
    next response the network delivers, or rejects when there is none. *)
Definition fetch_send (r : Request) : M unit := emit (EvFetch r).

Definition fetch_await : M Response :=
  fun w => match w_net w with
           | [] => (Throw (TypeError "Failed to fetch"), w)
           | r :: rs => (Ok r, upd_net rs w)
           end.

Definition fetch (r : Request) : M Response := fetch_send r ;; fetch_await.

(** [await res.json()] *)
Definition res_json (r : Response) : M Json :=
  match body r with
  | BJson j => ret j
  | BText _ => throw SyntaxError
  end.

(** A property read on a parsed JSON value. *)
Definition js_get (v : Json) (k : string) : M (option Json) :=
  match v with
  | JNull => throw (TypeError ("Cannot read properties of null (reading '" ++ k ++ "')"))
  | JObj fs => ret (js_prop fs k)
  | _ => ret None
  end.

(** [const err: ErrorResponse = await res.json();
     throw new Error(err.message || fallback)] *)
Definition throw_server_error {A} (res : Response) (fallback : string) : M A :=
  err <- res_json res ;;
  m <- js_get err "message" ;;
  throw (Error (if js_truthy m then js_String m else fallback)).

Definition json_num (v : option Json) : option Z :=
  match v with Some (JNum n) => Some n | _ => None end.
Definition json_str (v : option Json) : option string :=
  match v with Some (JStr s) => Some s | _ => None end.

Definition parse_hashParams (v : option Json) : option HashParams :=
  match v with
  | Some (JObj fs) =>
      match json_num (js_prop fs "timeCost"), json_num (js_prop fs "memoryCost"),
            json_num (js_prop fs "threads") with
      | Some t, Some m, Some p =>
          Some (mkHashParams (json_str (js_prop fs "type")) t m p
                  (json_num (js_prop fs "saltLen")))
      | _, _, _ => None
      end
  | _ => None
  end.

(** The [Challenge] shape of a 201 challenge body. The code casts the body
    without checking it; a body of another shape is modelled as a
    [TypeError] at the cast. *)
Definition parse_challenge (j : Json) : option Challenge :=
  match j with
  | JObj fs =>
      match json_str (js_prop fs "id"), json_str (js_prop fs "data"),
            json_str (js_prop fs "salt"), parse_hashParams (js_prop fs "hashParams") with
      | Some i, Some d, Some s, Some hp => Some (mkChallenge i d s hp)
      | _, _, _, _ => None
      end
  | _ => None
  end.

(** [MasterKeys] as the keys route returns them. *)
Record MasterKeys := mkMasterKeys {
  mk_publicKey : string;
  mk_privateKey : string;
  mk_hashSalt : string;
  mk_hashParams : HashParams
}.

Definition parse_masterKeys (j : Json) : option MasterKeys :=
  match j with
  | JObj fs =>
      match json_str (js_prop fs "publicKey"), json_str (js_prop fs "privateKey"),
            json_str (js_prop fs "hashSalt"), parse_hashParams (js_prop fs "hashParams") with
      | Some pk, Some sk, Some s, Some hp => Some (mkMasterKeys pk sk s hp)
      | _, _, _, _ => None
      end
  | _ => None
  end.

Definition content_type : string * string := ("Content-Type", "application/json").

(** ** The methods of [LoginActions] and [RegisterActions] *)
Section Actions.

Context (E : Env).

Definition route (path : string) : string :=
  if development E then "http://localhost:3030/api" ++ path
  else "https://api.csplan.co" ++ path.

Definition decode_m (s : string) : M bytes :=
  lift_option (LibraryError "decode") (decode E s).

(** [crypto.subtle.importKey('raw', material, alg, false, usages)] *)
Definition importKey_raw (material : option bytes) (alg : string) (usages : list string)
  : M CryptoKey :=
  emit (EvImportKey material alg usages) ;;
  match material with
  | None => throw (TypeError "importKey: keyData is not a BufferSource")
  | Some m =>
      if existsb (Nat.eqb (length m)) [16; 24; 32]%nat then ret (AesKey alg m usages)
      else throw DataError
  end.

(** [crypto.subtle.decrypt({name: 'AES-CTR', counter, length}, key, data)] *)
Definition decrypt_ctr (key : CryptoKey) (counter : bytes) (len : Z) (data : bytes)
  : M bytes :=
  emit (EvDecrypt "AES-CTR" key counter len data) ;;
  match key with
  | AesKey alg m us =>
      if String.eqb alg "AES-CTR" && existsb (String.eqb "decrypt") us then
        if Nat.eqb (length counter) 16 then ret (aes_ctr E m counter len data)
        else throw OperationError
      else throw (TypeError "InvalidAccessError")
  | _ => throw (TypeError "InvalidAccessError")
  end.

(** [aes.importKeyMaterial(material, Algorithms.AES_GCM)] *)
Definition importKeyMaterial_m (material : option bytes) (alg : string) : M CryptoKey :=
  match material with
  | None => throw (TypeError "importKeyMaterial: undefined material")
  | Some m => lift_option (LibraryError "importKeyMaterial") (importKeyMaterial E m alg)
  end.

Definition generateKeypair (keysize : Z) : M (CryptoKey * CryptoKey) :=
  n <- gets w_nonce ;;
  modify (upd_nonce (S n)) ;;
  lift_option (LibraryError "generateKeypair") (rsa_generateKeypair E keysize n).

(** [db.addToStore(store, record)]: the call is made now; the write
    completes later, storing the record or rejecting. *)
Definition idb_request (store : string) (r : KeysRecord) : M unit :=
  emit (EvIdbAdd store r).

Definition idb_complete (store : string) (r : KeysRecord) : M unit :=
  fun w => match db_addToStore E (w_idb w) store r with
           | None => (Ok tt, upd_idb (w_idb w ++ [(store, r)]) w)
           | Some e => (Throw e, w)
           end.

(** [await db.addToStore(store, record)] *)
Definition addToStore (store : string) (r : KeysRecord) : M unit :=
  idb_request store r ;; idb_complete store r.

(** [LoginActions.hashPassword] *)
Definition hashPassword (password : string) (salt : bytes) : M (option bytes) :=
  hp <- gets w_hashParams ;;
  let req := mkArgon2Hash password salt (timeCost hp) (memoryCost hp) (threads hp)
               AUTHKEY_SIZE in
  emit (EvHash req) ;;
  let message := argon2 E req in
  if negb (Z.eqb (reply_code message) ARGON2_OK) then throw (Error "Error running argon2.")
  else ret (reply_body message).

Definition challengeRequest_json (user : AuthUser) : Json :=
  JObj ([("email", JStr (u_email user))]
        ++ match u_totp user with Some t => [("totp", JNum t)] | None => [] end).

(** [authenticate], up to its first [await]: the challenge request is
    dispatched. *)
Definition auth_request (user : AuthUser) : M unit :=
  emit (EvMessage "Requesting authentication challenge") ;;
  fetch_send (mkRequest (route "/challenge?action=request") "POST" [content_type] false
                (Some (challengeRequest_json user))).

(** The last step of [authenticate]: submit the solved challenge and
    handle the server's verdict. *)
Definition auth_submit (user : AuthUser) (challengeId : string) (decrypted : bytes)
  : M AuthConditions :=
  emit (EvMessage "Submitting solved challenge") ;;
  res <- fetch (mkRequest (route ("/challenge/" ++ challengeId ++ "?action=submit"))
                 "POST" [content_type] false
                 (Some (JObj [("data", JStr (encode E decrypted))]))) ;;
  if Z.eqb (status res) 401 then
    throw (Error "Authentication failure, password is incorrect.")
  else if negb (Z.eqb (status res) 200) then
    throw_server_error res "Error submitting challenge."
  else
  emit (EvMessage "Successfully authenticated") ;;
  response <- res_json res ;;
  token <- js_get response "CSRFtoken" ;;
  setItem CSRF_TOKEN_KEY (js_String token) ;;
  id <- js_get response "id" ;;
  login (mkUser (u_email user) id) ;;
  ret Success.

(** The rest of [authenticate], from [await fetch(...)] on. *)
Definition auth_rest (user : AuthUser) (reuseAuthKey : bool) : M AuthConditions :=
  res <- fetch_await ;;
  if Z.eqb (status res) 412 then ret TOTPRequired
  else if negb (Z.eqb (status res) 201) then
    throw_server_error res "Unknown error requesting an auth challenge"
  else
  j <- res_json res ;;
  challenge <- lift_option (TypeError "challenge") (parse_challenge j) ;;
  modify (upd_hashParams (c_hashParams challenge)) ;;
  salt <- decode_m (c_salt challenge) ;;
  (if reuseAuthKey then emit (EvMessage "Using already generated authentication key")
   else
     emit (EvMessage "Generating authentication key") ;;
     m <- hashPassword (u_password user) salt ;;
     modify (upd_authKeyMaterial m)) ;;
  emit (EvMessage "Solving authentication challenge") ;;
  material <- gets w_authKeyMaterial ;;
  authKey <- importKey_raw material "AES-CTR" ["decrypt"] ;;
  challengeData <- decode_m (c_data challenge) ;;
  let iv := firstn 16 challengeData in
  let encrypted := skipn 16 challengeData in
  decrypted <- decrypt_ctr authKey iv 64 encrypted ;;
  auth_submit user (c_id challenge) decrypted.

(** [LoginActions.authenticate] *)
Definition authenticate (user : AuthUser) (reuseAuthKey : bool) : M AuthConditions :=
  auth_request user ;; auth_rest user reuseAuthKey.

(** [LoginActions.retrieveMasterKeypair] *)
Definition retrieveMasterKeypair (password : string) : M unit :=
  csrf <- gets w_csrf ;;
  res <- fetch (mkRequest (route "/keys") "GET"
                 [content_type; ("CSRF-Token", match csrf with Some t => t | None => "null" end)]
                 true None) ;;
  if negb (Z.eqb (status res) 200) then
    throw_server_error res "Failed to fetch master keypair"
  else
  j <- res_json res ;;
  keys <- lift_option (TypeError "keys") (parse_masterKeys j) ;;
  publicKey <- lift_option (LibraryError "importPublicKey")
                 (rsa_importPublicKey E (mk_publicKey keys)) ;;
  modify (upd_hashParams (mk_hashParams keys)) ;;
  emit (EvMessage "Decryting master keypair") ;;
  hashSalt <- decode_m (mk_hashSalt keys) ;;
  tempKeyMaterial <- hashPassword password hashSalt ;;
  tempKey <- importKeyMaterial_m tempKeyMaterial "AES-GCM" ;;
  emit (EvConsoleLog (mk_privateKey keys)) ;;
  privateKey <- lift_option (LibraryError "unwrapPrivateKey")
                  (rsa_unwrapPrivateKey E (mk_privateKey keys) tempKey) ;;
  userID <- get_user_id ;;
  addToStore "keys" (mkKeysRecord userID publicKey privateKey).

(** [RegisterActions.register]. The closing [this.authenticate(user, true)]
    is not awaited: its synchronous part (up to the challenge request) runs
    now, the rest is left as a pending task. *)
Definition register (user : AuthUser) (salt : bytes) : M unit :=
  emit (EvMessage "Generating authentication key") ;;
  m <- hashPassword (u_password user) salt ;;
  modify (upd_authKeyMaterial m) ;;
  modify (fun w => let hp := w_hashParams w in
                   upd_hashParams (mkHashParams (hp_type hp) (timeCost hp) (memoryCost hp)
                                     (threads hp) (Some (Z.of_nat (length salt)))) w) ;;
  material <- gets w_authKeyMaterial ;;
  key <- lift_option (TypeError "ABconcat") (option_map (fun k => app salt k) material) ;;
  hp <- gets w_hashParams ;;
  res <- fetch (mkRequest (route "/register") "POST" [content_type] false
                 (Some (JObj [("email", JStr (u_email user)); ("key", JStr (encode E key));
                              ("hashParams", hashParams_json hp)]))) ;;
  if negb (Z.eqb (status res) 201) then throw_server_error res "Failed to register account"
  else
  response <- res_json res ;;
  id <- js_get response "id" ;;
  login (mkUser (u_email user) id) ;;
  token <- js_get response "CSRFtoken" ;;
  setItem CSRF_TOKEN_KEY (js_String token) ;;
  auth_request user ;;
  modify (fun w => upd_pending (w_pending w ++ [TaskAuthRest user true]) w) ;;
  ret tt.

(** [RegisterActions.generateMasterKeypair] *)
Definition generateMasterKeypair (password : string) (salt : bytes) (keysize : Z) : M unit :=
  emit (EvMessage "Generating master keypair") ;;
  tempKeyMaterial <- hashPassword password salt ;;
  tempKey <- importKeyMaterial_m tempKeyMaterial "AES-GCM" ;;
  kp <- generateKeypair keysize ;;
  let (publicKey, privateKey) := kp in
  exportedPublicKey <- lift_option (LibraryError "exportPublicKey")
                         (rsa_exportPublicKey E publicKey) ;;
  encryptedPrivateKey <- lift_option (LibraryError "wrapPrivateKey")
                           (rsa_wrapPrivateKey E privateKey tempKey) ;;
  CSRFtoken <- gets w_csrf ;;
  match CSRFtoken with
  | None => throw (Error "Failed to retrieve CSRF-Token from localstorage.")
  | Some token =>
      hp <- gets w_hashParams ;;
      res <- fetch (mkRequest (route "/keys") "POST" [content_type; ("CSRF-Token", token)] true
                     (Some (JObj [("publicKey", JStr exportedPublicKey);
                                  ("privateKey", JStr encryptedPrivateKey);
                                  ("hashSalt", JStr (encode E salt));
                                  ("hashParams", hashParams_json hp)]))) ;;
      if negb (Z.eqb (status res) 201) then throw_server_error res "Failed to store master keypair"
      else
      userID <- get_user_id ;;
      (* not awaited: the write completes after the call has resolved *)
      let record := mkKeysRecord userID publicKey privateKey in
      idb_request "keys" record ;;
      modify (fun w => upd_pending (w_pending w ++ [TaskIdbAdd "keys" record]) w)
  end.

(** ** Detached calls: after a promise settles, the calls it started
    without [await] run; a rejection is recorded as unhandled. *)
Definition run_task (t : Task) (w : World) : World :=
  match t with
  | TaskAuthRest user reuse =>
      match auth_rest user reuse w with
      | (Ok _, w') => w'
      | (Throw e, w') => upd_unhandled (w_unhandled w' ++ [e]) w'
      end
  | TaskIdbAdd store r =>
      match idb_complete store r w with
      | (Ok _, w') => w'
      | (Throw e, w') => upd_unhandled (w_unhandled w' ++ [e]) w'
      end
  end.

Definition run_pending (w : World) : World :=
  fold_left (fun w t => run_task t w) (w_pending w) (upd_pending [] w).

(** Run a call to completion: its promise settles with the result of [m];
    the calls it left running then finish. *)
Definition settle {A} (m : M A) (w : World) : Result A * World :=
  let (r, w1) := m w in (r, run_pending w1).

End Actions.

(** ** A concrete environment and world for running the model *)

Definition sample_env : Env :=
  mkEnv false
    (fun r => mkArgon2Reply ARGON2_OK (Some (firstn 32 (a_salt r ++ repeat Byte.x07 32))))
    string_of_list_byte
    (fun s => Some (list_byte_of_string s))
    (fun _ _ _ d => d)
    (fun m alg => Some (AesKey alg m ["encrypt"; "decrypt"]))
    (fun _ n => Some (RsaPublic n, RsaPrivate n))
    (fun _ => Some "spki")
    (fun _ => Some (RsaPublic 0))
    (fun _ _ => Some "wrapped")
    (fun _ _ => Some (RsaPrivate 0))
    (fun _ _ _ => None).

Definition sample_user : AuthUser := mkAuthUser "a@b.com" "correct horse" None.

Definition sample_salt : bytes := list_byte_of_string "0123456789abcdef".

Definition sample_hashParams_json : Json :=
  JObj [("type", JStr "argon2i"); ("timeCost", JNum 1); ("memoryCost", JNum 131072);
        ("threads", JNum 1); ("saltLen", JNum 16)].

Definition sample_challenge : Json :=
  JObj [("id", JStr "c1"); ("data", JStr "IVIVIVIVIVIVIVIVpayload");
        ("salt", JStr "0123456789abcdef"); ("hashParams", sample_hashParams_json)].

Definition world_with (net : list Response) : World :=
  mkWorld None None default_hashParams None net O [] [] [] [].

(** The password-hash requests of a trace, in order. *)
Fixpoint hash_requests (t : list Event) : list Argon2Hash :=
  match t with
  | [] => []
  | EvHash r :: t' => r :: hash_requests t'
  | _ :: t' => hash_requests t'
  end.

(** Events that write the session: the CSRF token or the user identity. *)
Definition session_write (e : Event) : bool :=
  match e with
  | EvSetItem _ _ | EvLogin _ => true
  | _ => false
  end.

(** A password-hash request for a 32-byte output. *)
Definition hash_len_32 (e : Event) : Prop :=
  match e with EvHash r => hashLen r = AUTHKEY_SIZE | _ => True end.

(** An event that is not a password-hash request. *)
Definition not_hash (e : Event) : Prop :=
  match e with EvHash _ => False | _ => True end.

(** The challenge request [authenticate] sends first. *)
Definition challenge_request (E : Env) (user : AuthUser) : Request :=
  mkRequest (route E "/challenge?action=request") "POST" [content_type] false
    (Some (challengeRequest_json user)).

(** The base URL [route] prefixes in the current mode. *)
Definition api_base (E : Env) : string :=
  if development E then "http://localhost:3030/api/" else "https://api.csplan.co/".

(** A request whose URL lies under the API base. *)
Definition to_api (E : Env) (e : Event) : Prop :=
  match e with EvFetch rq => String.prefix (api_base E) (rq_url rq) = true | _ => True end.

(** A property read [response.k] on a parsed body that is not null. *)
Definition json_field (j : Json) (k : string) : option Json :=
  match j with JObj fs => js_prop fs k | _ => None end.

(** Neither a request nor a write to IndexedDB. *)
Definition local_only (e : Event) : Prop :=
  match e with EvFetch _ | EvIdbAdd _ _ => False | _ => True end.


(** The [onMessage] reports of a trace, in order. *)
Fixpoint messages (t : list Event) : list string :=
  match t with
  | [] => []
  | EvMessage m :: t' => m :: messages t'
  | _ :: t' => messages t'
  end.

(** The requests of a trace, in order. *)
Fixpoint fetches (t : list Event) : list Request :=
  match t with
  | [] => []
  | EvFetch rq :: t' => rq :: fetches t'
  | _ :: t' => fetches t'
  end.

(** The upload request of [generateMasterKeypair]. *)
Definition keys_upload (E : Env) (token xpub wrapped : string) (salt : bytes) (hp : HashParams)
  : Request :=
  mkRequest (route E "/keys") "POST" [content_type; ("CSRF-Token", token)] true
    (Some (JObj [("publicKey", JStr xpub); ("privateKey", JStr wrapped);
                 ("hashSalt", JStr (encode E salt)); ("hashParams", hashParams_json hp)])).

(** ** Sample runs used by the witnesses and counterexamples *)

(** A 201 challenge, then the given submit response. *)
Definition challenge_then (submit : Response) : World :=
  world_with [mkResponse 201 (BJson sample_challenge); submit].

(** The hash request [hashPassword] makes for a password and salt under
    the given parameters. *)
Definition hash_request (password : string) (salt : bytes) (hp : HashParams) : Argon2Hash :=
  mkArgon2Hash password salt (timeCost hp) (memoryCost hp) (threads hp) AUTHKEY_SIZE.

(** The cost fields of the hash parameters. *)
Definition costs (hp : HashParams) : Z * Z * Z := (timeCost hp, memoryCost hp, threads hp).

(** A network answering a registration and then a key upload with 201. *)
Definition registration_world : World :=
  world_with [mkResponse 201 (BJson (JObj [("id", JStr "u1"); ("CSRFtoken", JStr "tok")]));
              mkResponse 201 (BJson (JObj []))].

(** A logged-in session with a CSRF token, whose key upload is answered
    with 201. *)
Definition keys_world : World :=
  mkWorld (Some "tok") (Some (mkUser "a@b.com" (Some (JStr "u1")))) default_hashParams None
    [mkResponse 201 (BJson (JObj []))] O [] [] [] [].

(** The sample environment with an argon2 worker that reports an error. *)
Definition argon2_error_env : Env :=
  mkEnv (development sample_env) (fun _ => mkArgon2Reply 1 None) (encode sample_env)
    (decode sample_env) (aes_ctr sample_env) (importKeyMaterial sample_env)
    (rsa_generateKeypair sample_env) (rsa_exportPublicKey sample_env)
    (rsa_importPublicKey sample_env) (rsa_wrapPrivateKey sample_env)
    (rsa_unwrapPrivateKey sample_env) (db_addToStore sample_env).

(** The sample environment with RSA export and wrapping inverted by
    import and unwrapping. *)
Definition roundtrip_env : Env :=
  mkEnv false (argon2 sample_env) (encode sample_env) (decode sample_env)
    (aes_ctr sample_env) (importKeyMaterial sample_env)
    (fun _ _ => Some (RsaPublic 0, RsaPrivate 0))
    (fun k => match k with RsaPublic O => Some "spki" | _ => None end)
    (fun x => if String.eqb x "spki" then Some (RsaPublic 0) else None)
    (fun k _ => match k with RsaPrivate O => Some "wrapped" | _ => None end)
    (fun x _ => if String.eqb x "wrapped" then Some (RsaPrivate 0) else None)
    (db_addToStore sample_env).

(** The sample environment with an IndexedDB that refuses a second
    record in a store: the sample session has a single user, whose id a
    stored record already carries. *)
Definition idb_add_env : Env :=
  mkEnv false (argon2 sample_env) (encode sample_env) (decode sample_env)
    (aes_ctr sample_env) (importKeyMaterial sample_env) (rsa_generateKeypair sample_env)
    (rsa_exportPublicKey sample_env) (rsa_importPublicKey sample_env)
    (rsa_wrapPrivateKey sample_env) (rsa_unwrapPrivateKey sample_env)
    (fun db st _ => if existsb (fun p => String.eqb (fst p) st) db
                    then Some (IdbError "ConstraintError") else None).

(** A keys record already stored for the sample user. *)
Definition stored_keys : list (string * KeysRecord) :=
  [("keys", mkKeysRecord (Some (JStr "u1")) (RsaPublic 0) (RsaPrivate 0))].

(** The body [generateMasterKeypair] uploads in [roundtrip_env] from
    [keys_world] with [sample_salt]. *)
Definition uploaded_keys_json : Json :=
  JObj [("publicKey", JStr "spki"); ("privateKey", JStr "wrapped");
        ("hashSalt", JStr "0123456789abcdef"); ("hashParams", hashParams_json default_hashParams)].

(** A logged-in session whose keys request is answered with 200 and [b]. *)
Definition retrieve_world (b : Json) : World :=
  mkWorld (Some "tok") (Some (mkUser "a@b.com" (Some (JStr "u1")))) default_hashParams None
    [mkResponse 200 (BJson b)] O [] [] [] [].

(** A registration answered with 201, then a challenge and its
    acceptance for the follow-up login. *)
Definition registration_then_login_world : World :=
  world_with [mkResponse 201 (BJson (JObj [("id", JStr "u1"); ("CSRFtoken", JStr "tok")]));
              mkResponse 201 (BJson sample_challenge);
              mkResponse 200 (BJson (JObj [("id", JStr "u1"); ("CSRFtoken", JStr "tok2")]))].

(** A stored 32-byte key and a challenge whose data is 5 bytes long. *)
Definition short_challenge_world : World :=
  mkWorld None None default_hashParams (Some (repeat Byte.x07 32))
    [mkResponse 201 (BJson (JObj [("id", JStr "c1"); ("data", JStr "short");
                                  ("salt", JStr "0123456789abcdef");
                                  ("hashParams", sample_hashParams_json)]))] O [] [] [] [].

(** ** Trace growth: a computation only appends events satisfying [P]. *)

Definition grows (P : Event -> Prop) {A} (m : M A) : Prop :=
  forall w r w', m w = (r, w') ->
  exists evs, w_trace w' = (w_trace w ++ evs)%list /\ Forall P evs.

Section Grows.
Variable P : Event -> Prop.

Lemma grows_ret {A} (a : A) : grows P (ret a).
Proof. intros w r w' H. injection H as <- <-. exists []. rewrite app_nil_r. auto. Qed.

Lemma grows_throw {A} e : grows P (@throw A e).
Proof. intros w r w' H. injection H as <- <-. exists []. rewrite app_nil_r. auto. Qed.

Lemma grows_gets {A} (f : World -> A) : grows P (gets f).
Proof. intros w r w' H. injection H as <- <-. exists []. rewrite app_nil_r. auto. Qed.

Lemma grows_lift_option {A} e (o : option A) : grows P (lift_option e o).
Proof. destruct o; [apply grows_ret | apply grows_throw]. Qed.

Lemma grows_modify f : (forall w, w_trace (f w) = w_trace w) -> grows P (modify f).
Proof. intros Hf w r w' H. injection H as <- <-. exists []. rewrite app_nil_r. auto. Qed.

Lemma grows_emit e : P e -> grows P (emit e).
Proof. intros He w r w' H. injection H as <- <-. exists [e]. auto. Qed.

Lemma grows_fetch_await : grows P fetch_await.
Proof.
  intros w r w' H. unfold fetch_await in H.
  destruct (w_net w); injection H as <- <-; exists []; rewrite app_nil_r; auto.
Qed.

Lemma grows_bind {A B} (m : M A) (k : A -> M B) :
  grows P m -> (forall a, grows P (k a)) -> grows P (bind m k).
Proof.
  intros Hm Hk w r w' H. unfold bind in H.
  destruct (m w) as [[a|e] w1] eqn:E1.
  - destruct (Hm _ _ _ E1) as [e1 [T1 F1]]. destruct (Hk a _ _ _ H) as [e2 [T2 F2]].
    exists (e1 ++ e2)%list. rewrite T2, T1, app_assoc. split; auto. apply Forall_app; auto.
  - injection H as <- <-. eauto.
Qed.

Lemma grows_idb_complete E st r : grows P (idb_complete E st r).
Proof.
  intros w r' w' H. unfold idb_complete in H.
  destruct (db_addToStore E (w_idb w) st r); injection H as <- <-;
    exists []; rewrite app_nil_r; auto.
Qed.

End Grows.

Create HintDb grows_db.
#[export] Hint Resolve grows_ret grows_throw grows_gets grows_lift_option grows_fetch_await
  grows_idb_complete : grows_db.

(** Unfold a method down to the monad's primitives. *)
Ltac unfold_methods :=
  unfold register, generateMasterKeypair, retrieveMasterKeypair, authenticate, auth_rest,
    auth_submit, auth_request, throw_server_error, fetch, fetch_send,
    res_json, js_get, decode_m, importKey_raw, decrypt_ctr, importKeyMaterial_m,
    generateKeypair, hashPassword, setItem, login, get_user_id, addToStore, idb_request.

Ltac unfold_methods_in H :=
  unfold register, generateMasterKeypair, retrieveMasterKeypair, authenticate, auth_rest,
    auth_submit, auth_request, throw_server_error, fetch, fetch_send,
    res_json, js_get, decode_m, importKey_raw, decrypt_ctr, importKeyMaterial_m,
    generateKeypair, hashPassword, setItem, login, get_user_id, addToStore, idb_request,
    idb_complete in H.

Ltac grows_tac :=
  repeat match goal with
  | |- grows _ (bind _ _) => apply grows_bind; [| intro]
  | |- grows _ (modify _) => apply grows_modify; intros [? ? ? ? ? ? ? ? ? ?]; reflexivity
  | |- grows _ (emit _) => apply grows_emit
  | |- grows _ (if ?b then _ else _) => destruct b
  | |- grows _ (match ?x with _ => _ end) => destruct x
  | |- grows _ (let (_, _) := ?p in _) => destruct p
  | |- grows _ _ => solve [auto with grows_db]
  end.

(** ** Symbolic execution of a run [m w = (r, w')]: unfold to the
    primitives, reduce, and split on every test the code makes. The
    recursive helpers stay folded so that reduction stops on symbolic
    data. *)

Ltac simp_in H :=
  cbn -[app firstn skipn length Z.eqb Nat.eqb js_truthy js_String js_prop Z_to_string
        parse_challenge parse_masterKeys hashParams_json challengeRequest_json route] in H.

Ltac split_match_in H :=
  match type of H with
  | context [match ?x with _ => _ end] =>
      lazymatch x with
      | context [match _ with _ => _ end] => fail
      | _ => first
               [ match goal with Hx : x = _ |- _ => rewrite Hx in H end
               | let Eq := fresh "Eq" in
                 destruct x eqn:Eq; try (cbn in Eq; discriminate Eq) ]
      end
  end.

Ltac run_in H :=
  unfold_methods_in H;
  unfold emit, modify, gets, lift_option, fetch_await, bind, ret, throw in H;
  repeat (simp_in H; first [ discriminate H | split_match_in H ]).

Lemma trace_snoc (l t evs : list Event) (x : Event) :
  t = (l ++ evs)%list -> (t ++ [x])%list = (l ++ (evs ++ [x]))%list.
Proof. intros ->. rewrite app_assoc; reflexivity. Qed.

Lemma trace_base (l : list Event) : l = (l ++ [])%list.
Proof. symmetry. apply app_nil_r. Qed.

Ltac trace_ext :=
  match goal with
  | |- (_ ++ [_])%list = _ => apply trace_snoc; trace_ext
  | |- _ => apply trace_base
  end.

Ltac world_simpl :=
  cbn [w_csrf w_user w_hashParams w_authKeyMaterial w_net w_nonce w_trace w_pending
       w_unhandled w_idb upd_csrf upd_user upd_hashParams upd_authKeyMaterial upd_net
       upd_nonce upd_trace upd_pending upd_unhandled upd_idb].

(** Introduce [In x evs] for an explicit [evs] and split on its members. *)
Ltac in_leaf :=
  let Hin := fresh "Hin" in
  repeat lazymatch goal with |- In _ _ -> _ => fail | |- forall _, _ => intro end;
  intro Hin; cbn [In] in Hin;
  repeat (destruct Hin as [Hin|Hin]; [try discriminate Hin|]); try contradiction.

(** [In x t] for a trace [t] built by appending single events. *)
Ltac in_trace :=
  first [ apply in_or_app; right; left; reflexivity | apply in_or_app; left; in_trace ].

(** Close a leaf whose trace is the start trace followed by explicit events. *)
Ltac trace_leaf :=
  world_simpl; eexists; split; [ trace_ext | cbn [app] ].

(** [status res = n] from the test the code made on it. *)
Ltac status_eq :=
  match goal with
  | H : negb (?x =? ?y) = false |- ?x = ?y => apply negb_false_iff, Z.eqb_eq in H; exact H
  | H : (?x =? ?y) = true |- ?x = ?y => apply Z.eqb_eq in H; exact H
  end.

(** * The claims *)

(** ** Lemmas shared by the claims *)

(** The hash requests of a concatenation. *)
Lemma hash_requests_app (a b : list Event) :
  hash_requests (a ++ b)%list = (hash_requests a ++ hash_requests b)%list.
Proof. induction a as [|[] a IH]; cbn; try rewrite IH; reflexivity. Qed.

(** A trace without hash events has no hash requests. *)
Lemma hash_requests_not_hash (evs : list Event) :
  Forall not_hash evs -> hash_requests evs = [].
Proof. induction 1 as [|[] evs Hx _ IH]; cbn in *; tauto. Qed.

(** With key reuse, the rest of [authenticate] requests no hash. *)
Lemma auth_rest_reuse_no_hash E u : grows not_hash (auth_rest E u true).
Proof.
  unfold auth_rest, auth_submit, throw_server_error, fetch, fetch_send, res_json, js_get,
    decode_m, importKey_raw, decrypt_ctr, setItem, login.
  cbv beta iota zeta. grows_tac; cbn; auto.
Qed.

(** Any run of [register]: one hash request, and the pending login
    task added on success only. *)
Lemma register_run E u s w r w1 :
  register E u s w = (r, w1) ->
  (exists evs, w_trace w1 = (w_trace w ++ evs)%list /\
     hash_requests evs = [hash_request (u_password u) s (w_hashParams w)]) /\
  w_pending w1 = match r with
                 | Ok _ => (w_pending w ++ [TaskAuthRest u true])%list
                 | Throw _ => w_pending w
                 end /\
  w_unhandled w1 = w_unhandled w.
Proof.
  intros H. destruct w. run_in H; injection H as <- <-;
    (split; [trace_leaf; reflexivity | split; reflexivity]).
Qed.

(** A successful run of [register], event by event. *)
Lemma register_ok E u s w w1 :
  register E u s w = (Ok tt, w1) ->
  exists rq id tok,
    w_trace w1 = (w_trace w ++ [EvMessage "Generating authentication key";
                                EvHash (hash_request (u_password u) s (w_hashParams w));
                                EvFetch rq; EvLogin (mkUser (u_email u) id);
                                EvSetItem CSRF_TOKEN_KEY tok;
                                EvMessage "Requesting authentication challenge";
                                EvFetch (challenge_request E u)])%list /\
    rq_url rq = route E "/register" /\ rq_method rq = "POST" /\
    w_authKeyMaterial w1 = reply_body (argon2 E (hash_request (u_password u) s (w_hashParams w))) /\
    w_user w1 = Some (mkUser (u_email u) id) /\ w_csrf w1 = Some tok /\
    w_pending w1 = (w_pending w ++ [TaskAuthRest u true])%list.
Proof.
  intros H. destruct w. run_in H; injection H as <-; world_simpl;
    (do 3 eexists; split; [etransitivity; [trace_ext | cbn [app]; reflexivity] |];
     repeat split; reflexivity).
Qed.

(** C1 (amended). A 401 answer to the challenge submission is reported
    as the fixed error "Authentication failure, password is incorrect.",
    whatever the body; any other non-200 answer whose body is a JSON
    object is reported as an error carrying the body's [message], or the
    fallback "Error submitting challenge." when that is missing or falsy;
    a body that is not JSON gives the parse error of [res.json()]
    instead, and a null body the error of reading [message] on null;
    and whenever [authenticate] fails it has written neither the CSRF
    token nor the user identity. *)
Theorem authenticate_submit_failures E :
  (forall u cid d w res rest, w_net w = res :: rest -> status res = 401 ->
     fst (auth_submit E u cid d w)
     = Throw (Error "Authentication failure, password is incorrect.")) /\
  (forall u cid d w res rest fs, w_net w = res :: rest ->
     status res <> 401 -> status res <> 200 -> body res = BJson (JObj fs) ->
     fst (auth_submit E u cid d w)
     = Throw (Error (if js_truthy (js_prop fs "message") then js_String (js_prop fs "message")
                     else "Error submitting challenge."))) /\
  (forall u cid d w res rest t, w_net w = res :: rest ->
     status res <> 401 -> status res <> 200 -> body res = BText t ->
     fst (auth_submit E u cid d w) = Throw SyntaxError) /\
  (forall u cid d w res rest, w_net w = res :: rest ->
     status res <> 401 -> status res <> 200 -> body res = BJson JNull ->
     fst (auth_submit E u cid d w)
     = Throw (TypeError "Cannot read properties of null (reading 'message')")) /\
  (forall u reuse w e w', authenticate E u reuse w = (Throw e, w') ->
     w_csrf w' = w_csrf w /\ w_user w' = w_user w /\
     exists evs, w_trace w' = (w_trace w ++ evs)%list /\
                 forallb (fun ev => negb (session_write ev)) evs = true).
Proof.
  split; [| split; [| split; [| split]]].
  - intros u cid d w res rest Hn Hs. destruct w; cbn in Hn; subst.
    unfold auth_submit, fetch, fetch_send, fetch_await, emit, modify, bind, ret, throw. cbn.
    rewrite Hs. reflexivity.
  - intros u cid d w res rest fs Hn H1 H2 Hb. destruct w; cbn in Hn; subst.
    unfold auth_submit, throw_server_error, res_json, js_get, fetch, fetch_send, fetch_await,
      emit, modify, bind, ret, throw. cbn.
    apply Z.eqb_neq in H1, H2. rewrite H1, H2, Hb. reflexivity.
  - intros u cid d w res rest t Hn H1 H2 Hb. destruct w; cbn in Hn; subst.
    unfold auth_submit, throw_server_error, res_json, js_get, fetch, fetch_send, fetch_await,
      emit, modify, bind, ret, throw. cbn.
    apply Z.eqb_neq in H1, H2. rewrite H1, H2, Hb. reflexivity.
  - intros u cid d w res rest Hn H1 H2 Hb. destruct w; cbn in Hn; subst.
    unfold auth_submit, throw_server_error, res_json, js_get, fetch, fetch_send, fetch_await,
      emit, modify, bind, ret, throw. cbn.
    apply Z.eqb_neq in H1, H2. rewrite H1, H2, Hb. reflexivity.
  - intros u reuse w e w' H. destruct w. run_in H; injection H as <- <-;
      (split; [reflexivity | split; [reflexivity | trace_leaf; reflexivity]]).
Qed.

Lemma authenticate_submit_failures_witness :
  fst (auth_submit sample_env sample_user "c1" [] (world_with [mkResponse 401 (BJson JNull)]))
  = Throw (Error "Authentication failure, password is incorrect.").
Proof.
  exact (proj1 (authenticate_submit_failures sample_env) sample_user "c1" []
           (world_with [mkResponse 401 (BJson JNull)]) (mkResponse 401 (BJson JNull)) []
           eq_refl eq_refl).
Defined.

(** C1 fails as stated: a 502 answer to the submission whose body is not
    JSON (a proxy's HTML page) is reported as the parse error of
    [res.json()], not as an error carrying a message or the fallback. *)
Lemma authenticate_submit_non_json_body :
  fst (authenticate sample_env sample_user false
         (challenge_then (mkResponse 502 (BText "<html>Bad Gateway</html>"))))
  = Throw SyntaxError.
Proof. vm_compute. reflexivity. Qed.

(** C2 (amended). [register] and [generateMasterKeypair] each hash the
    password with the salt their caller passes and the cost fields of
    [this.hashParams]; neither generates nor compares salts, so the two
    salts differ exactly when the caller passes different ones. [register]
    changes only [saltLen], so a [generateMasterKeypair] right after it
    hashes with the same cost parameters; [generateMasterKeypair] leaves
    the parameters unchanged. *)
Theorem register_and_keypair_hash_caller_salts E :
  (forall u s w r w1, register E u s w = (r, w1) ->
     costs (w_hashParams w1) = costs (w_hashParams w) /\
     exists evs, w_trace w1 = (w_trace w ++ evs)%list /\
     hash_requests evs = [hash_request (u_password u) s (w_hashParams w)]) /\
  (forall pw s ks w r w', generateMasterKeypair E pw s ks w = (r, w') ->
     w_hashParams w' = w_hashParams w /\
     exists evs, w_trace w' = (w_trace w ++ evs)%list /\
     hash_requests evs = [hash_request pw s (w_hashParams w)]).
Proof.
  split.
  - intros u s w r w1 H. destruct w. run_in H; injection H as <- <-;
      (split; [reflexivity | trace_leaf; reflexivity]).
  - intros pw s ks w r w' H. destruct w. run_in H; injection H as <- <-;
      (split; [reflexivity | trace_leaf; reflexivity]).
Qed.

Lemma register_and_keypair_hash_caller_salts_witness :
  exists w1, register sample_env sample_user sample_salt registration_world = (Ok tt, w1) /\
  costs (w_hashParams w1) = costs (w_hashParams registration_world).
Proof.
  destruct (register sample_env sample_user sample_salt registration_world) as [r w1] eqn:Hrun.
  pose proof Hrun as Hc. vm_compute in Hc. injection Hc as Hr _. subst r.
  exists w1. split; [reflexivity |].
  exact (proj1 (proj1 (register_and_keypair_hash_caller_salts sample_env)
                  sample_user sample_salt registration_world (Ok tt) w1 Hrun)).
Defined.

(** C2 fails as stated: nothing keeps the two salts apart. A
    registration followed by a key-pair generation given the same salt
    both succeed, and both hash the password with that salt. *)
Lemma register_then_keypair_same_salt :
  let (r1, w1) := register sample_env sample_user sample_salt registration_world in
  let (r2, w2) := generateMasterKeypair sample_env (u_password sample_user) sample_salt 2048 w1 in
  r1 = Ok tt /\ r2 = Ok tt /\ map a_salt (hash_requests (w_trace w2)) = [sample_salt; sample_salt].
Proof. vm_compute. split; [| split]; reflexivity. Qed.

(** C3. The private key leaves [generateMasterKeypair] only wrapped:
    every request it sends is the POST to /keys whose body holds the
    exported public key, the private key wrapped under the temp key
    imported from the password hash, the encoded salt and the hash
    parameters; the generated private key itself is only added to the
    local "keys" store, under the logged-in user's id. [retrieveMasterKeypair]
    sends only a body-less GET to /keys, and stores locally, under the
    user's id, the private key it unwraps. *)
Theorem master_private_key_stays_local E :
  (forall pw s ks w r w', generateMasterKeypair E pw s ks w = (r, w') ->
     exists evs, w_trace w' = (w_trace w ++ evs)%list /\
     (forall rq, In (EvFetch rq) evs ->
        exists pub priv tk xpub wrapped token,
          rsa_generateKeypair E ks (w_nonce w) = Some (pub, priv) /\
          rsa_exportPublicKey E pub = Some xpub /\
          rsa_wrapPrivateKey E priv tk = Some wrapped /\
          (exists mat, importKeyMaterial E mat "AES-GCM" = Some tk) /\
          w_csrf w = Some token /\
          rq = mkRequest (route E "/keys") "POST" [content_type; ("CSRF-Token", token)] true
                 (Some (JObj [("publicKey", JStr xpub); ("privateKey", JStr wrapped);
                              ("hashSalt", JStr (encode E s));
                              ("hashParams", hashParams_json (w_hashParams w))]))) /\
     (forall st rec, In (EvIdbAdd st rec) evs ->
        exists u0 pub priv, st = "keys" /\ w_user w = Some u0 /\
          rsa_generateKeypair E ks (w_nonce w) = Some (pub, priv) /\
          rec = mkKeysRecord (user_id u0) pub priv)) /\
  (forall pw w r w', retrieveMasterKeypair E pw w = (r, w') ->
     exists evs, w_trace w' = (w_trace w ++ evs)%list /\
     (forall rq, In (EvFetch rq) evs ->
        rq_url rq = route E "/keys" /\ rq_method rq = "GET" /\ rq_body rq = None) /\
     (forall st rec, In (EvIdbAdd st rec) evs ->
        exists u0 sk tk, st = "keys" /\ w_user w = Some u0 /\ k_id rec = user_id u0 /\
          rsa_unwrapPrivateKey E sk tk = Some (k_privateKey rec))).
Proof.
  split.
  2:{ intros pw w r w' H. destruct w. run_in H; injection H as <- <-; trace_leaf.
  all: split; in_leaf.
  all: try (lazymatch type of Hin with
    | EvFetch _ = _ => injection Hin as <-; repeat split
    | EvIdbAdd _ _ = _ => injection Hin as <- <-;
        match goal with H : option_map _ ?x = Some _ |- _ =>
          destruct x; cbn in H; [injection H as <- | discriminate H] end;
        do 3 eexists
    end;
    repeat split; first [eassumption | eexists; eassumption | reflexivity]).
  }
  intros pw s ks w r w' H. destruct w. run_in H; injection H as <- <-; trace_leaf.
  all: split; in_leaf.
  all: try (lazymatch type of Hin with
    | EvFetch _ = _ => injection Hin as <-; do 6 eexists
    | EvIdbAdd _ _ = _ => injection Hin as <- <-;
        match goal with H : option_map _ ?x = Some _ |- _ =>
          destruct x; cbn in H; [injection H as <- | discriminate H] end;
        do 3 eexists
    end;
    repeat split; first [eassumption | eexists; eassumption | reflexivity]).
Qed.

Lemma master_private_key_stays_local_witness :
  exists r w', generateMasterKeypair sample_env "pw" sample_salt 2048 keys_world = (r, w') /\
  exists evs, w_trace w' = (w_trace keys_world ++ evs)%list /\
  forall rq, In (EvFetch rq) evs -> rq_method rq = "POST".
Proof.
  destruct (generateMasterKeypair sample_env "pw" sample_salt 2048 keys_world)
    as [r w'] eqn:Hrun.
  exists r, w'. split; [reflexivity |].
  destruct (proj1 (master_private_key_stays_local sample_env) "pw" sample_salt 2048
              keys_world r w' Hrun) as (evs & Ht & Hf & _).
  exists evs. split; [exact Ht |].
  intros rq Hin. destruct (Hf rq Hin) as (pub & priv & tk & xpub & wr & tok & _ & _ & _ & _ & _ & ->).
  reflexivity.
Defined.

(** C4. Every decryption [authenticate] performs is AES-CTR over the
    decoded challenge data: the first 16 bytes are the counter, the rest
    the payload, under a decrypt-only AES-CTR key whose material is the
    stored authentication key material; without key reuse that material
    is the worker's answer to the hash of the password with the
    challenge's salt and hash parameters. *)
Theorem authenticate_decrypts_counter_and_payload E u reuse w r w' :
  authenticate E u reuse w = (r, w') ->
  exists evs, w_trace w' = (w_trace w ++ evs)%list /\
  forall alg k ctr len dat, In (EvDecrypt alg k ctr len dat) evs ->
  exists res rest j c cd m,
    w_net w = res :: rest /\ body res = BJson j /\ parse_challenge j = Some c /\
    decode E (c_data c) = Some cd /\
    alg = "AES-CTR" /\ ctr = firstn 16 cd /\ dat = skipn 16 cd /\ len = 64 /\
    k = AesKey "AES-CTR" m ["decrypt"] /\ w_authKeyMaterial w' = Some m /\
    (if reuse then w_authKeyMaterial w = Some m
     else exists s, decode E (c_salt c) = Some s /\
          reply_body (argon2 E (mkArgon2Hash (u_password u) s (timeCost (c_hashParams c))
             (memoryCost (c_hashParams c)) (threads (c_hashParams c)) AUTHKEY_SIZE)) = Some m).
Proof.
  intros H. destruct w. destruct reuse; run_in H;
    injection H as <- <-; trace_leaf; in_leaf;
    injection Hin as <- <- <- <- <-; do 6 eexists; repeat split; eauto.
Qed.

Lemma authenticate_decrypts_counter_and_payload_witness :
  exists evs,
    w_trace (snd (authenticate sample_env sample_user false
                    (challenge_then (mkResponse 401 (BJson JNull))))) = ([] ++ evs)%list /\
    forall alg k ctr len dat, In (EvDecrypt alg k ctr len dat) evs ->
    ctr = firstn 16 (list_byte_of_string "IVIVIVIVIVIVIVIVpayload") /\
    dat = skipn 16 (list_byte_of_string "IVIVIVIVIVIVIVIVpayload").
Proof.
  destruct (authenticate sample_env sample_user false
              (challenge_then (mkResponse 401 (BJson JNull)))) as [r w'] eqn:Hrun.
  destruct (authenticate_decrypts_counter_and_payload _ _ _ _ _ _ Hrun) as [evs [Ht Hd]].
  exists evs. cbn [snd]. split; [exact Ht |].
  intros alg k ctr len dat Hin.
  destruct (Hd alg k ctr len dat Hin)
    as (res & rest & j & c & cd & m & Hn & Hb & Hp & Hc & _ & -> & -> & _).
  vm_compute in Hn. injection Hn as <- <-. vm_compute in Hb. injection Hb as <-.
  vm_compute in Hp. injection Hp as <-. vm_compute in Hc. injection Hc as <-.
  split; reflexivity.
Defined.

(** C5 (amended). When the challenge request is answered with 412,
    [authenticate] returns [TOTPRequired] as an ordinary value, having
    only sent the challenge request; any other non-201 answer whose body
    is a JSON object is thrown as an error carrying the body's [message],
    or "Unknown error requesting an auth challenge" when that is missing
    or falsy; a body that is not JSON gives the parse error of
    [res.json()] instead. *)
Theorem authenticate_challenge_request_outcomes E u reuse w res rest :
  w_net w = res :: rest ->
  (status res = 412 ->
     authenticate E u reuse w =
       (Ok TOTPRequired,
        upd_net rest (upd_trace (w_trace w ++ [EvMessage "Requesting authentication challenge";
                                               EvFetch (challenge_request E u)])%list w))) /\
  (status res <> 412 -> status res <> 201 -> forall fs, body res = BJson (JObj fs) ->
     fst (authenticate E u reuse w) =
       Throw (Error (if js_truthy (js_prop fs "message") then js_String (js_prop fs "message")
                     else "Unknown error requesting an auth challenge"))) /\
  (status res <> 412 -> status res <> 201 -> forall t, body res = BText t ->
     fst (authenticate E u reuse w) = Throw SyntaxError).
Proof.
  intros Hn. destruct w; cbn in Hn; subst. split; [| split].
  - intros Hs. unfold authenticate, auth_request, auth_rest, fetch_send, fetch_await,
      emit, modify, bind, ret.
    cbn. rewrite Hs. cbn. rewrite <- app_assoc. reflexivity.
  - intros H1 H2 fs Hb. unfold authenticate, auth_request, auth_rest, throw_server_error,
      res_json, js_get, fetch_send, fetch_await, emit, modify, bind, ret, throw. cbn.
    apply Z.eqb_neq in H1, H2. rewrite H1, H2, Hb. reflexivity.
  - intros H1 H2 t Hb. unfold authenticate, auth_request, auth_rest, throw_server_error,
      res_json, js_get, fetch_send, fetch_await, emit, modify, bind, ret, throw. cbn.
    apply Z.eqb_neq in H1, H2. rewrite H1, H2, Hb. reflexivity.
Qed.

Lemma authenticate_challenge_request_outcomes_witness :
  fst (authenticate sample_env sample_user false (world_with [mkResponse 412 (BText "")]))
  = Ok TOTPRequired.
Proof.
  rewrite (proj1 (authenticate_challenge_request_outcomes sample_env sample_user false
                    (world_with [mkResponse 412 (BText "")]) (mkResponse 412 (BText "")) []
                    eq_refl) eq_refl).
  reflexivity.
Defined.

(** C5 fails as stated: a 503 answer to the challenge request whose body
    is not JSON is reported as the parse error of [res.json()], not as an
    error carrying a message or the fallback. *)
Lemma authenticate_challenge_non_json_body :
  fst (authenticate sample_env sample_user false
         (world_with [mkResponse 503 (BText "Service Unavailable")]))
  = Throw SyntaxError.
Proof. vm_compute. reflexivity. Qed.

(** C6. A successful [register] hashes the password once, with the
    caller's salt, creates the account, logs the user in, stores the CSRF
    token and sends the challenge request, leaving the rest of
    [authenticate] to run with key reuse; that rest requests no password
    hash, so a registration run to completion, with its follow-up login,
    requests exactly one hash. *)
Theorem register_derives_key_once E u s :
  (forall w w1, register E u s w = (Ok tt, w1) ->
     exists rq id tok,
       w_trace w1 = (w_trace w ++ [EvMessage "Generating authentication key";
                                   EvHash (hash_request (u_password u) s (w_hashParams w));
                                   EvFetch rq; EvLogin (mkUser (u_email u) id);
                                   EvSetItem CSRF_TOKEN_KEY tok;
                                   EvMessage "Requesting authentication challenge";
                                   EvFetch (challenge_request E u)])%list /\
       rq_url rq = route E "/register" /\ rq_method rq = "POST" /\
       w_user w1 = Some (mkUser (u_email u) id) /\ w_csrf w1 = Some tok /\
       w_pending w1 = (w_pending w ++ [TaskAuthRest u true])%list) /\
  grows not_hash (auth_rest E u true) /\
  (forall w r w', w_pending w = [] -> settle E (register E u s) w = (r, w') ->
     exists evs, w_trace w' = (w_trace w ++ evs)%list /\
       hash_requests evs = [hash_request (u_password u) s (w_hashParams w)]).
Proof.
  split; [| split].
  - intros w w1 H. destruct (register_ok E u s w w1 H)
      as (rq & id & tok & Ht & Hu & Hm & _ & Huser & Hc & Hp).
    exists rq, id, tok. auto 7.
  - apply auth_rest_reuse_no_hash.
  - intros w r w' Hw H. unfold settle in H.
    destruct (register E u s w) as [r1 w1] eqn:Hr. injection H as <- <-.
    destruct (register_run E u s w r1 w1 Hr) as ((evs & Ht & Hh) & Hp & _).
    unfold run_pending. rewrite Hp, Hw. destruct r1 as [a|e]; cbn [app fold_left].
    + unfold run_task.
      destruct (auth_rest E u true (upd_pending [] w1)) as [r2 w2] eqn:Ha.
      destruct (auth_rest_reuse_no_hash E u _ _ _ Ha) as (evs2 & Ht2 & Hf2).
      destruct w1 as [? ? ? ? ? ? t1 ? ? ?]; cbn in Ht, Ht2.
      exists (evs ++ evs2)%list.
      rewrite hash_requests_app, Hh, (hash_requests_not_hash evs2 Hf2), app_nil_r.
      destruct r2; destruct w2; cbn in Ht2 |- *; subst; rewrite app_assoc; auto.
    + exists evs. destruct w1; cbn in Ht |- *. auto.
Qed.

Lemma register_derives_key_once_witness :
  exists w1, register sample_env sample_user sample_salt registration_world = (Ok tt, w1) /\
  w_pending w1 = [TaskAuthRest sample_user true].
Proof.
  destruct (register sample_env sample_user sample_salt registration_world) as [r w1] eqn:Hrun.
  pose proof Hrun as Hc. vm_compute in Hc. injection Hc as Hr _. subst r.
  exists w1. split; [reflexivity |].
  destruct (proj1 (register_derives_key_once sample_env sample_user sample_salt) registration_world w1 Hrun)
    as (rq & id & tok & _ & _ & _ & _ & _ & Hp).
  exact Hp.
Defined.

(** C7. Once a 201 challenge is received, [this.hashParams] is the
    challenge's hash parameters, and the only password hash requested is,
    without key reuse, the password with the challenge's decoded salt and
    the challenge's cost parameters (none with key reuse). *)
Theorem authenticate_adopts_challenge_hash_params E u reuse w res rest j c r w' :
  w_net w = res :: rest -> status res = 201 -> body res = BJson j ->
  parse_challenge j = Some c ->
  authenticate E u reuse w = (r, w') ->
  w_hashParams w' = c_hashParams c /\
  exists evs, w_trace w' = (w_trace w ++ evs)%list /\
  hash_requests evs =
    if reuse then []
    else match decode E (c_salt c) with
         | Some s => [mkArgon2Hash (u_password u) s (timeCost (c_hashParams c))
                        (memoryCost (c_hashParams c)) (threads (c_hashParams c)) AUTHKEY_SIZE]
         | None => []
         end.
Proof.
  intros Hn Hs Hb Hp H. destruct w; cbn in Hn; subst.
  destruct res as [st bd]; cbn in Hs, Hb; subst.
  destruct (decode E (c_salt c)) eqn:Hd; destruct reuse;
    run_in H; injection H as <- <-; (split; [reflexivity | trace_leaf; reflexivity]).
Qed.

Lemma authenticate_adopts_challenge_hash_params_witness :
  exists c, parse_challenge sample_challenge = Some c /\
  w_hashParams (snd (authenticate sample_env sample_user false
                       (challenge_then (mkResponse 401 (BJson JNull))))) = c_hashParams c.
Proof.
  destruct (parse_challenge sample_challenge) as [c|] eqn:Hp; [| discriminate Hp].
  exists c. split; [reflexivity |].
  destruct (authenticate sample_env sample_user false
              (challenge_then (mkResponse 401 (BJson JNull)))) as [r w'] eqn:Hrun.
  exact (proj1 (authenticate_adopts_challenge_hash_params sample_env sample_user false
                  (challenge_then (mkResponse 401 (BJson JNull)))
                  (mkResponse 201 (BJson sample_challenge)) [mkResponse 401 (BJson JNull)]
                  _ c r w' eq_refl eq_refl eq_refl Hp Hrun)).
Defined.

(** C8. Every password hash the four operations request asks for a
    32-byte output. *)
Theorem password_hashes_are_32_bytes E :
  (forall u reuse, grows hash_len_32 (authenticate E u reuse)) /\
  (forall u s, grows hash_len_32 (register E u s)) /\
  (forall pw s ks, grows hash_len_32 (generateMasterKeypair E pw s ks)) /\
  (forall pw, grows hash_len_32 (retrieveMasterKeypair E pw)).
Proof.
  repeat split; intros; unfold_methods; cbv zeta; grows_tac; cbn; auto.
Qed.

(** C9. [register] resolves as soon as the account is created, the user
    logged in and the CSRF token stored, with the rest of the follow-up
    [authenticate] still pending (only its challenge request sent); once
    that rest has run, the outcome of [register] is still success, and a
    failure of the follow-up login is only recorded as an unhandled
    rejection. *)
Theorem register_resolves_before_login E u s w w1 :
  w_pending w = [] -> register E u s w = (Ok tt, w1) ->
  (exists id tok, w_user w1 = Some (mkUser (u_email u) id) /\ w_csrf w1 = Some tok) /\
  w_pending w1 = [TaskAuthRest u true] /\
  (exists evs, w_trace w1 = (w_trace w ++ evs ++ [EvFetch (challenge_request E u)])%list) /\
  forall r2 w2, auth_rest E u true (upd_pending [] w1) = (r2, w2) ->
    settle E (register E u s) w =
      (Ok tt, match r2 with
              | Ok _ => w2
              | Throw e => upd_unhandled (w_unhandled w2 ++ [e]) w2
              end).
Proof.
  intros Hw H.
  destruct (register_ok E u s w w1 H) as (rq & id & tok & Ht & _ & _ & _ & Hu & Hc & Hp).
  rewrite Hw in Hp. split; [eauto | split; [exact Hp | split]].
  - rewrite Ht.
    exists [EvMessage "Generating authentication key";
            EvHash (hash_request (u_password u) s (w_hashParams w));
            EvFetch rq; EvLogin (mkUser (u_email u) id); EvSetItem CSRF_TOKEN_KEY tok;
            EvMessage "Requesting authentication challenge"].
    reflexivity.
  - intros r2 w2 Ha. unfold settle. rewrite H. unfold run_pending. rewrite Hp.
    cbn [app fold_left]. unfold run_task. rewrite Ha. reflexivity.
Qed.

Lemma register_resolves_before_login_witness :
  fst (settle sample_env (register sample_env sample_user sample_salt) registration_world)
  = Ok tt.
Proof.
  destruct (register sample_env sample_user sample_salt registration_world) as [r w1] eqn:Hrun.
  pose proof Hrun as Hc. vm_compute in Hc. injection Hc as Hr _. subst r.
  destruct (auth_rest sample_env sample_user true (upd_pending [] w1)) as [r2 w2] eqn:Ha.
  rewrite (proj2 (proj2 (proj2 (register_resolves_before_login sample_env sample_user sample_salt registration_world w1
                                  eq_refl Hrun))) r2 w2 Ha).
  reflexivity.
Defined.

(** C10. With key reuse, [authenticate] requests no password hash, keeps
    [this.authKeyMaterial], and imports exactly the stored material: so
    it is non-null when a prior hash stored it; when the material is
    still null, a well-formed challenge leads the key import to be called
    with null, which throws. *)
Theorem authenticate_reuse_imports_stored_material E :
  (forall u w r w', authenticate E u true w = (r, w') ->
     w_authKeyMaterial w' = w_authKeyMaterial w /\
     exists evs, w_trace w' = (w_trace w ++ evs)%list /\ hash_requests evs = [] /\
     forall m alg us, In (EvImportKey m alg us) evs -> m = w_authKeyMaterial w) /\
  (forall u w res rest j c s r w',
     w_net w = res :: rest -> status res = 201 -> body res = BJson j ->
     parse_challenge j = Some c -> decode E (c_salt c) = Some s ->
     w_authKeyMaterial w = None -> authenticate E u true w = (r, w') ->
     r = Throw (TypeError "importKey: keyData is not a BufferSource") /\
     In (EvImportKey None "AES-CTR" ["decrypt"]) (w_trace w')).
Proof.
  split.
  - intros u w r w' H. destruct w. run_in H; injection H as <- <-;
      (split; [reflexivity | trace_leaf; split; [reflexivity | in_leaf; now injection Hin]]).
  - intros u w res rest j c s r w' Hn Hs Hb Hp Hd Hm H.
    destruct w; cbn in Hn, Hm; subst. destruct res as [st bd]; cbn in Hs, Hb; subst.
    run_in H. injection H as <- <-. split; [reflexivity | world_simpl; in_trace].
Qed.

Lemma authenticate_reuse_imports_stored_material_witness :
  fst (authenticate sample_env sample_user true (challenge_then (mkResponse 200 (BJson JNull))))
  = Throw (TypeError "importKey: keyData is not a BufferSource").
Proof.
  destruct (authenticate sample_env sample_user true
              (challenge_then (mkResponse 200 (BJson JNull)))) as [r w'] eqn:Hrun.
  destruct (parse_challenge sample_challenge) as [c|] eqn:Hp; [| discriminate Hp].
  destruct (decode sample_env (c_salt c)) as [s|] eqn:Hd;
    [| injection Hp as <-; discriminate Hd].
  exact (proj1 (proj2 (authenticate_reuse_imports_stored_material sample_env)
                  sample_user (challenge_then (mkResponse 200 (BJson JNull)))
                  (mkResponse 201 (BJson sample_challenge))
                  [mkResponse 200 (BJson JNull)] _ c s r w'
                  eq_refl eq_refl eq_refl Hp Hd eq_refl Hrun)).
Defined.

(** * Further properties of the code *)

(** ** Lemmas shared by the further properties *)

(** Cutting [l ++ k] at the length of [l]. *)
Lemma firstn_length_app {A} (l k : list A) : firstn (length l) (l ++ k) = l.
Proof. induction l; cbn; f_equal; auto. Qed.

Lemma skipn_length_app {A} (l k : list A) : skipn (length l) (l ++ k) = k.
Proof. induction l; cbn; auto. Qed.

(** With key reuse, the rest of [authenticate] imports the material it
    finds in [this.authKeyMaterial]. *)
Lemma auth_rest_reuse_imports E u w r w' :
  auth_rest E u true w = (r, w') ->
  exists evs, w_trace w' = (w_trace w ++ evs)%list /\
  forall m alg us, In (EvImportKey m alg us) evs -> m = w_authKeyMaterial w.
Proof.
  intros H. destruct w. run_in H; injection H as <- <-;
    (trace_leaf; in_leaf; now injection Hin).
Qed.

(** The keys document [generateMasterKeypair] uploads reads back as the
    [MasterKeys] it was built from. *)
Lemma parse_masterKeys_upload xpub wrapped hs hp :
  parse_masterKeys (JObj [("publicKey", JStr xpub); ("privateKey", JStr wrapped);
                          ("hashSalt", JStr hs); ("hashParams", hashParams_json hp)])
  = Some (mkMasterKeys xpub wrapped hs hp).
Proof. destruct hp as [[t|] ? ? ? [n|]]; reflexivity. Qed.

(** A successful run of [generateMasterKeypair], event by event; the
    IndexedDB write is left running. *)
Lemma generateMasterKeypair_ok E pw s ks w w1 :
  generateMasterKeypair E pw s ks w = (Ok tt, w1) ->
  exists m tk pub priv xpub wrapped token u0,
    negb (reply_code (argon2 E (hash_request pw s (w_hashParams w))) =? ARGON2_OK) = false /\
    reply_body (argon2 E (hash_request pw s (w_hashParams w))) = Some m /\
    importKeyMaterial E m "AES-GCM" = Some tk /\
    rsa_generateKeypair E ks (w_nonce w) = Some (pub, priv) /\
    rsa_exportPublicKey E pub = Some xpub /\ rsa_wrapPrivateKey E priv tk = Some wrapped /\
    w_csrf w = Some token /\ w_user w = Some u0 /\ w_hashParams w1 = w_hashParams w /\
    w_pending w1 = (w_pending w ++ [TaskIdbAdd "keys" (mkKeysRecord (user_id u0) pub priv)])%list /\
    w_idb w1 = w_idb w /\ w_unhandled w1 = w_unhandled w /\
    w_trace w1 = (w_trace w ++ [EvMessage "Generating master keypair";
                                EvHash (hash_request pw s (w_hashParams w));
                                EvFetch (keys_upload E token xpub wrapped s (w_hashParams w));
                                EvIdbAdd "keys" (mkKeysRecord (user_id u0) pub priv)])%list.
Proof.
  intros H. destruct w. run_in H. injection H as <-.
  match goal with Hu : option_map _ ?x = Some _ |- _ =>
    destruct x as [u0|]; cbn in Hu; [injection Hu as <- | discriminate Hu] end.
  do 8 eexists. repeat split; try eassumption; try reflexivity.
  cbn. rewrite <- !app_assoc. reflexivity.
Qed.

(** ** The properties *)

(** Every request [authenticate], [register], [generateMasterKeypair] and
    [retrieveMasterKeypair] send goes to a URL under the API base of the
    current mode: http://localhost:3030/api/ in development,
    https://api.csplan.co/ otherwise. *)
Theorem requests_go_to_api_base E :
  (forall u reuse, grows (to_api E) (authenticate E u reuse)) /\
  (forall u s, grows (to_api E) (register E u s)) /\
  (forall pw s ks, grows (to_api E) (generateMasterKeypair E pw s ks)) /\
  (forall pw, grows (to_api E) (retrieveMasterKeypair E pw)).
Proof.
  repeat split; intros; unfold_methods; cbv zeta; grows_tac; cbn; auto;
    unfold api_base, route; destruct (development E); reflexivity.
Qed.

(** Without a CSRF token in localStorage, [generateMasterKeypair] always
    fails, sends no request, consumes no response and writes nothing to
    IndexedDB; when hashing, key import, key generation, export and
    wrapping all succeed, the error is "Failed to retrieve CSRF-Token from
    localstorage.". *)
Theorem keypair_generation_needs_csrf_token E pw s ks w r w' :
  w_csrf w = None -> generateMasterKeypair E pw s ks w = (r, w') ->
  ((exists e, r = Throw e) /\ w_net w' = w_net w /\
   exists evs, w_trace w' = (w_trace w ++ evs)%list /\ Forall local_only evs) /\
  (forall m tk pub priv xpub wrapped,
     reply_code (argon2 E (hash_request pw s (w_hashParams w))) = ARGON2_OK ->
     reply_body (argon2 E (hash_request pw s (w_hashParams w))) = Some m ->
     importKeyMaterial E m "AES-GCM" = Some tk ->
     rsa_generateKeypair E ks (w_nonce w) = Some (pub, priv) ->
     rsa_exportPublicKey E pub = Some xpub -> rsa_wrapPrivateKey E priv tk = Some wrapped ->
     r = Throw (Error "Failed to retrieve CSRF-Token from localstorage.")).
Proof.
  intros Hc H. split.
  - destruct w; cbn in Hc; subst. run_in H; injection H as <- <-;
      (split; [eexists; reflexivity | split; [reflexivity | trace_leaf; repeat constructor]]).
  - intros m tk pub priv xpub wrapped Hcode Hb Hi Hg Hx Hw.
    destruct w as [c us hp ak net n t p un db]; cbn in *; subst. unfold hash_request in Hcode, Hb.
    assert (Hn : negb (reply_code (argon2 E {| a_password := pw; a_salt := s;
              a_timeCost := timeCost hp; a_memoryCost := memoryCost hp;
              a_threads := threads hp; hashLen := AUTHKEY_SIZE |}) =? ARGON2_OK)
              = false) by (rewrite Hcode; reflexivity).
    run_in H. injection H as <- <-. reflexivity.
Qed.

Lemma keypair_generation_needs_csrf_token_witness :
  fst (generateMasterKeypair sample_env "pw" sample_salt 2048 (world_with []))
  = Throw (Error "Failed to retrieve CSRF-Token from localstorage.").
Proof.
  destruct (generateMasterKeypair sample_env "pw" sample_salt 2048 (world_with []))
    as [r w'] eqn:Hrun.
  cbn [fst].
  refine (proj2 (keypair_generation_needs_csrf_token sample_env "pw" sample_salt 2048
                   (world_with []) r w' eq_refl Hrun)
            (firstn 32 (sample_salt ++ repeat Byte.x07 32)%list)
            (AesKey "AES-GCM" (firstn 32 (sample_salt ++ repeat Byte.x07 32)%list)
               ["encrypt"; "decrypt"])
            (RsaPublic 0) (RsaPrivate 0) "spki" "wrapped" _ _ _ _ _ _);
    vm_compute; reflexivity.
Defined.

(** Once the keys route answers 200 with a well-formed document whose
    public key imports, [retrieveMasterKeypair] replaces [this.hashParams]
    by the stored hash parameters, and the only hash it requests is the
    password with the decoded stored salt under those parameters. *)
Theorem retrieve_uses_stored_hash_params E pw w res rest j k pub r w' :
  w_net w = res :: rest -> status res = 200 -> body res = BJson j ->
  parse_masterKeys j = Some k -> rsa_importPublicKey E (mk_publicKey k) = Some pub ->
  retrieveMasterKeypair E pw w = (r, w') ->
  w_hashParams w' = mk_hashParams k /\
  exists evs, w_trace w' = (w_trace w ++ evs)%list /\
  hash_requests evs = match decode E (mk_hashSalt k) with
                      | Some s => [hash_request pw s (mk_hashParams k)]
                      | None => []
                      end.
Proof.
  intros Hn Hs Hb Hp Hi H. destruct w; cbn in Hn; subst.
  destruct res as [st bd]; cbn in Hs, Hb; subst.
  destruct (decode E (mk_hashSalt k)) eqn:Hd;
    run_in H; injection H as <- <-; (split; [reflexivity | trace_leaf; reflexivity]).
Qed.

Lemma retrieve_uses_stored_hash_params_witness :
  w_hashParams (snd (retrieveMasterKeypair sample_env "pw" (retrieve_world uploaded_keys_json)))
  = default_hashParams.
Proof.
  destruct (retrieveMasterKeypair sample_env "pw" (retrieve_world uploaded_keys_json))
    as [r w'] eqn:Hrun.
  exact (proj1 (retrieve_uses_stored_hash_params sample_env "pw"
                  (retrieve_world uploaded_keys_json) (mkResponse 200 (BJson uploaded_keys_json))
                  [] uploaded_keys_json
                  (mkMasterKeys "spki" "wrapped" "0123456789abcdef" default_hashParams)
                  (RsaPublic 0) r w' eq_refl eq_refl eq_refl
                  (parse_masterKeys_upload _ _ _ _) eq_refl Hrun)).
Defined.

(** A successful [register] sends exactly two requests, in this order:
    the registration, then the challenge request of the follow-up login.
    The registration's key is the salt followed by the derived
    authentication key, and its hash parameters are [this.hashParams]
    with [saltLen] set to the salt's byte length; cutting the key at
    [saltLen] gives back the salt, and the rest is the material
    [register] keeps in [this.authKeyMaterial]. *)
Theorem register_sends_registration_then_challenge E u s w w1 :
  register E u s w = (Ok tt, w1) ->
  exists evs key hp, w_trace w1 = (w_trace w ++ evs)%list /\
    fetches evs = [mkRequest (route E "/register") "POST" [content_type] false
                     (Some (JObj [("email", JStr (u_email u)); ("key", JStr (encode E key));
                                  ("hashParams", hashParams_json hp)]));
                   challenge_request E u] /\
    hp = mkHashParams (hp_type (w_hashParams w)) (timeCost (w_hashParams w))
           (memoryCost (w_hashParams w)) (threads (w_hashParams w))
           (Some (Z.of_nat (length s))) /\
    firstn (length s) key = s /\
    w_authKeyMaterial w1 = Some (skipn (length s) key).
Proof.
  intros H. destruct w. run_in H; injection H as <-;
    (match goal with Hm : option_map _ ?x = Some _ |- _ =>
       destruct x; cbn in Hm; [injection Hm as <- | discriminate Hm] end;
     world_simpl; do 3 eexists; split; [trace_ext |];
     split; [reflexivity |]; split; [reflexivity |];
     split; [apply firstn_length_app | rewrite skipn_length_app; reflexivity]).
Qed.

Lemma register_sends_registration_then_challenge_witness :
  exists w1, register sample_env sample_user sample_salt registration_world = (Ok tt, w1) /\
  exists evs key, w_trace w1 = (w_trace registration_world ++ evs)%list /\
    length (fetches evs) = 2%nat /\ firstn 16 key = sample_salt /\
    w_authKeyMaterial w1 = Some (skipn 16 key).
Proof.
  destruct (register sample_env sample_user sample_salt registration_world) as [r w1] eqn:Hrun.
  pose proof Hrun as Hc. vm_compute in Hc. injection Hc as Hr _. subst r.
  exists w1. split; [reflexivity |].
  destruct (register_sends_registration_then_challenge sample_env sample_user sample_salt
              registration_world w1 Hrun) as (evs & key & hp & Ht & Hf & _ & Hk & Hm).
  exists evs, key. split; [exact Ht |].
  split; [rewrite Hf; reflexivity | split; [exact Hk | exact Hm]].
Defined.

(** When the argon2 worker reports an error while [authenticate] derives
    the key from a challenge, [authenticate] fails with "Error running
    argon2.", keeps the previous [this.authKeyMaterial], and submits
    nothing. *)
Theorem authenticate_argon2_failure_keeps_key E u w res rest j c s r w' :
  w_net w = res :: rest -> status res = 201 -> body res = BJson j ->
  parse_challenge j = Some c -> decode E (c_salt c) = Some s ->
  reply_code (argon2 E (hash_request (u_password u) s (c_hashParams c))) <> ARGON2_OK ->
  authenticate E u false w = (r, w') ->
  r = Throw (Error "Error running argon2.") /\
  w_authKeyMaterial w' = w_authKeyMaterial w /\ w_net w' = rest.
Proof.
  intros Hn Hs Hb Hp Hd Hc H. destruct w; cbn in Hn; subst.
  destruct res as [st bd]; cbn in Hs, Hb; subst.
  unfold hash_request in Hc. apply Z.eqb_neq in Hc.
  assert (Hn : negb (reply_code (argon2 E {| a_password := u_password u; a_salt := s;
            a_timeCost := timeCost (c_hashParams c); a_memoryCost := memoryCost (c_hashParams c);
            a_threads := threads (c_hashParams c); hashLen := AUTHKEY_SIZE |}) =? ARGON2_OK)
            = true) by (rewrite Hc; reflexivity).
  run_in H. injection H as <- <-. repeat split.
Qed.

Lemma authenticate_argon2_failure_keeps_key_witness :
  fst (authenticate argon2_error_env sample_user false
         (challenge_then (mkResponse 200 (BJson JNull))))
  = Throw (Error "Error running argon2.").
Proof.
  destruct (authenticate argon2_error_env sample_user false
              (challenge_then (mkResponse 200 (BJson JNull)))) as [r w'] eqn:Hrun.
  refine (proj1 (authenticate_argon2_failure_keeps_key argon2_error_env sample_user
                   (challenge_then (mkResponse 200 (BJson JNull)))
                   (mkResponse 201 (BJson sample_challenge)) [mkResponse 200 (BJson JNull)]
                   sample_challenge
                   (mkChallenge "c1" "IVIVIVIVIVIVIVIVpayload" "0123456789abcdef"
                      (mkHashParams (Some "argon2i") 1 131072 1 (Some 16)))
                   sample_salt r w' eq_refl eq_refl eq_refl _ _ _ Hrun)).
  - vm_compute. reflexivity.
  - vm_compute. reflexivity.
  - intros Hc. vm_compute in Hc. discriminate Hc.
Defined.

(** [authenticate] returns [Success] only after a 201 challenge and a 200
    submission; the session then holds [String(response.CSRFtoken)] as
    the CSRF token and the user with [response.id], so a response
    without a token stores the string "undefined". *)
Theorem authenticate_success_session E u reuse w w' :
  authenticate E u reuse w = (Ok Success, w') ->
  exists res1 res2 rest j,
    w_net w = res1 :: res2 :: rest /\ status res1 = 201 /\ status res2 = 200 /\
    body res2 = BJson j /\ w_net w' = rest /\
    w_csrf w' = Some (js_String (json_field j "CSRFtoken")) /\
    w_user w' = Some (mkUser (u_email u) (json_field j "id")).
Proof.
  intros H. destruct w. run_in H; injection H as <-;
    (do 4 eexists; repeat split; first [reflexivity | eassumption | status_eq]).
Qed.

Lemma authenticate_success_session_witness :
  w_csrf (snd (authenticate sample_env sample_user false
                 (challenge_then (mkResponse 200 (BJson (JObj []))))))
  = Some "undefined".
Proof.
  destruct (authenticate sample_env sample_user false
              (challenge_then (mkResponse 200 (BJson (JObj []))))) as [r w'] eqn:Hrun.
  pose proof Hrun as Hc. vm_compute in Hc. injection Hc as Hr _. subst r.
  destruct (authenticate_success_session sample_env sample_user false _ w' Hrun)
    as (res1 & res2 & rest & j & Hn & _ & _ & Hb & _ & Hcs & _).
  cbn in Hn. injection Hn as <- <- <-. cbn in Hb. injection Hb as <-.
  cbn [snd]. rewrite Hcs. reflexivity.
Defined.

(** [authenticate] returns [TOTPRequired] only when the challenge request
    is answered with 412; it has then only reported one message, sent the
    challenge request and consumed that response. *)
Theorem authenticate_totp_only_on_412 E u reuse w w' :
  authenticate E u reuse w = (Ok TOTPRequired, w') ->
  exists res rest, w_net w = res :: rest /\ status res = 412 /\
  w' = upd_net rest (upd_trace (w_trace w ++ [EvMessage "Requesting authentication challenge";
                                              EvFetch (challenge_request E u)])%list w).
Proof.
  intros H. destruct w. run_in H. injection H as <-.
  do 2 eexists. split; [reflexivity | split; [status_eq |]].
  cbn. rewrite <- app_assoc. reflexivity.
Qed.

Lemma authenticate_totp_only_on_412_witness :
  exists w', authenticate sample_env sample_user false (world_with [mkResponse 412 (BText "")])
             = (Ok TOTPRequired, w') /\ w_net w' = [].
Proof.
  destruct (authenticate sample_env sample_user false (world_with [mkResponse 412 (BText "")]))
    as [r w'] eqn:Hrun.
  pose proof Hrun as Hc. vm_compute in Hc. injection Hc as Hr _. subst r.
  exists w'. split; [reflexivity |].
  destruct (authenticate_totp_only_on_412 sample_env sample_user false _ w' Hrun)
    as (res & rest & Hn & _ & ->).
  cbn in Hn. injection Hn as _ <-. reflexivity.
Defined.





(** [generateMasterKeypair] resolves before its IndexedDB write completes.
    Once the call and what it left running have settled, the generated
    keypair is stored under the user's id when IndexedDB accepts the
    record; when it refuses it, nothing is stored and the refusal is an
    unhandled rejection, although the call itself succeeded. *)
Theorem keypair_write_settles_after_call E pw s ks w w2 :
  w_pending w = [] ->
  settle E (generateMasterKeypair E pw s ks) w = (Ok tt, w2) ->
  exists u0 pub priv, w_user w = Some u0 /\
    rsa_generateKeypair E ks (w_nonce w) = Some (pub, priv) /\ w_pending w2 = [] /\
    match db_addToStore E (w_idb w) "keys" (mkKeysRecord (user_id u0) pub priv) with
    | None => w_idb w2 = (w_idb w ++ [("keys", mkKeysRecord (user_id u0) pub priv)])%list /\
              w_unhandled w2 = w_unhandled w
    | Some e => w_idb w2 = w_idb w /\ w_unhandled w2 = (w_unhandled w ++ [e])%list
    end.
Proof.
  intros Hp H. unfold settle in H.
  destruct (generateMasterKeypair E pw s ks w) as [r1 w1] eqn:H1.
  injection H as Hr <-. subst r1.
  destruct (generateMasterKeypair_ok E pw s ks w w1 H1)
    as (m & tk & pub & priv & xpub & wrapped & token & u0 &
        _ & _ & _ & Hg & _ & _ & _ & Hu & _ & Hpe & Hidb & Hun & _).
  exists u0, pub, priv. split; [exact Hu | split; [exact Hg |]].
  unfold run_pending. rewrite Hpe, Hp. cbn [app fold_left]. unfold run_task, idb_complete.
  world_simpl. rewrite Hidb.
  destruct (db_addToStore E (w_idb w) "keys" (mkKeysRecord (user_id u0) pub priv));
    world_simpl; rewrite ?Hidb, ?Hun; repeat split.
Qed.

Lemma keypair_write_settles_after_call_witness :
  exists w2, settle idb_add_env (generateMasterKeypair idb_add_env "pw" sample_salt 2048)
               (upd_idb stored_keys keys_world) = (Ok tt, w2) /\
  w_idb w2 = stored_keys /\ w_unhandled w2 = [IdbError "ConstraintError"].
Proof.
  destruct (settle idb_add_env (generateMasterKeypair idb_add_env "pw" sample_salt 2048)
              (upd_idb stored_keys keys_world)) as [r w2] eqn:Hrun.
  pose proof Hrun as Hc. vm_compute in Hc. injection Hc as Hr _. subst r.
  exists w2. split; [reflexivity |].
  destruct (keypair_write_settles_after_call idb_add_env "pw" sample_salt 2048
              (upd_idb stored_keys keys_world) w2 eq_refl Hrun) as (u0 & pub & priv & _ & _ & _ & Hm).
  cbn in Hm. destruct Hm as [H1 H2]. rewrite H1, H2. split; reflexivity.
Defined.

(** Uploading and retrieving the master keypair round-trip: if the keys
    route later returns exactly the document [generateMasterKeypair]
    uploaded, [retrieveMasterKeypair] with the same password recovers the
    generated public and private keys and restores the hash parameters
    used at upload, and writes the keypair to IndexedDB under the current
    user's id; the call resolves exactly when IndexedDB accepts that
    record, which is then stored, and otherwise fails with IndexedDB's
    error. This holds provided decoding undoes encoding on the salt and
    RSA import and unwrapping undo export and wrapping. *)
Theorem keys_upload_retrieve_roundtrip E pw s ks w w1 evs rq b w2 rest u2 :
  decode E (encode E s) = Some s ->
  (forall k x, rsa_exportPublicKey E k = Some x -> rsa_importPublicKey E x = Some k) ->
  (forall k tk x, rsa_wrapPrivateKey E k tk = Some x -> rsa_unwrapPrivateKey E x tk = Some k) ->
  generateMasterKeypair E pw s ks w = (Ok tt, w1) ->
  w_trace w1 = (w_trace w ++ evs)%list -> In (EvFetch rq) evs -> rq_body rq = Some b ->
  w_net w2 = mkResponse 200 (BJson b) :: rest -> w_user w2 = Some u2 ->
  exists pub priv w3,
    rsa_generateKeypair E ks (w_nonce w) = Some (pub, priv) /\
    retrieveMasterKeypair E pw w2 =
      (match db_addToStore E (w_idb w2) "keys" (mkKeysRecord (user_id u2) pub priv) with
       | None => Ok tt
       | Some e => Throw e
       end, w3) /\
    w_hashParams w3 = w_hashParams w /\
    In (EvIdbAdd "keys" (mkKeysRecord (user_id u2) pub priv)) (w_trace w3) /\
    w_idb w3 = match db_addToStore E (w_idb w2) "keys" (mkKeysRecord (user_id u2) pub priv) with
               | None => (w_idb w2 ++ [("keys", mkKeysRecord (user_id u2) pub priv)])%list
               | Some _ => w_idb w2
               end.
Proof.
  intros Hd Hexp Hwrap H Ht Hin Hb Hn Hu.
  destruct (generateMasterKeypair_ok E pw s ks w w1 H)
    as (m & tk & pub & priv & xpub & wrapped & token & u0 &
        Hc & Hm & Hi & Hg & Hx & Hw & _ & _ & _ & _ & _ & _ & Ht1).
  rewrite Ht1 in Ht. apply app_inv_head in Ht. subst evs.
  cbn in Hin. destruct Hin as [Hin|[Hin|[Hin|[Hin|[]]]]]; try discriminate Hin.
  injection Hin as <-. cbn in Hb. injection Hb as <-.
  pose proof (Hexp _ _ Hx) as Hip. pose proof (Hwrap _ _ _ Hw) as Hun.
  pose proof (parse_masterKeys_upload xpub wrapped (encode E s) (w_hashParams w)) as Hparse.
  unfold hash_request in Hc, Hm.
  exists pub, priv.
  destruct (retrieveMasterKeypair E pw w2) as [r3 w3] eqn:H3. exists w3.
  destruct w2 as [c2 us2 hp2 ak2 net2 n2 t2 p2 un2 db2]; cbn in Hn, Hu; subst.
  world_simpl.
  destruct (db_addToStore E db2 "keys" (mkKeysRecord (user_id u2) pub priv)) eqn:Hdb;
    run_in H3; injection H3 as <- <-;
    (split; [exact Hg | split; [reflexivity | split; [reflexivity |
       split; [world_simpl; in_trace | reflexivity]]]]).
Qed.

Lemma keys_upload_retrieve_roundtrip_witness :
  exists pub priv w3,
    rsa_generateKeypair roundtrip_env 2048 O = Some (pub, priv) /\
    retrieveMasterKeypair roundtrip_env "pw" (retrieve_world uploaded_keys_json) = (Ok tt, w3) /\
    w_hashParams w3 = default_hashParams /\
    w_idb w3 = [("keys", mkKeysRecord (Some (JStr "u1")) pub priv)].
Proof.
  destruct (generateMasterKeypair roundtrip_env "pw" sample_salt 2048 keys_world)
    as [r w1] eqn:Hrun.
  pose proof Hrun as Hc. vm_compute in Hc. injection Hc as Hr Hw. subst r.
  destruct (keys_upload_retrieve_roundtrip roundtrip_env "pw" sample_salt 2048 keys_world w1
              (w_trace w1) (keys_upload roundtrip_env "tok" "spki" "wrapped" sample_salt
                              default_hashParams)
              uploaded_keys_json (retrieve_world uploaded_keys_json) []
              (mkUser "a@b.com" (Some (JStr "u1"))))
    as (pub & priv & w3 & Hg & Hr & Hh & _ & Hi).
  - vm_compute. reflexivity.
  - intros k x H. destruct k as [| [|n] | n]; cbn in H; try discriminate H.
    injection H as <-. reflexivity.
  - intros k tk x H. destruct k as [| | [|n]]; cbn in H; try discriminate H.
    injection H as <-. reflexivity.
  - exact Hrun.
  - reflexivity.
  - rewrite <- Hw. vm_compute. right; right; left; reflexivity.
  - vm_compute. reflexivity.
  - reflexivity.
  - reflexivity.
  - exists pub, priv, w3. cbn in Hr, Hi.
    split; [exact Hg | split; [exact Hr | split; [exact Hh | exact Hi]]].
Defined.

(** With a stored 32-byte key, a challenge whose decoded data is shorter
    than 16 bytes makes [authenticate] fail with WebCrypto's
    OperationError (the counter block [challengeData.slice(0, 16)] is too
    short) before it submits anything. *)
Theorem authenticate_short_challenge_fails E u w res rest j c s m d r w' :
  w_net w = res :: rest -> status res = 201 -> body res = BJson j ->
  parse_challenge j = Some c -> decode E (c_salt c) = Some s ->
  w_authKeyMaterial w = Some m -> length m = 32%nat ->
  decode E (c_data c) = Some d -> (length d < 16)%nat ->
  authenticate E u true w = (r, w') ->
  r = Throw OperationError /\ w_net w' = rest.
Proof.
  intros Hn Hs Hb Hp Hd Hm Hl Hdd Hshort H. destruct w; cbn in Hn, Hm; subst.
  destruct res as [st bd]; cbn in Hs, Hb; subst.
  assert (Hf : Nat.eqb (length (firstn 16 d)) 16 = false)
    by (apply Nat.eqb_neq; rewrite length_firstn; lia).
  run_in H; try (rewrite Hl in *; discriminate).
  all: injection H as <- <-; split; reflexivity.
Qed.

Lemma authenticate_short_challenge_fails_witness :
  fst (authenticate sample_env sample_user true short_challenge_world) = Throw OperationError.
Proof.
  destruct (authenticate sample_env sample_user true short_challenge_world) as [r w'] eqn:Hrun.
  refine (proj1 (authenticate_short_challenge_fails sample_env sample_user short_challenge_world
                   _ [] _ (mkChallenge "c1" "short" "0123456789abcdef"
                             (mkHashParams (Some "argon2i") 1 131072 1 (Some 16)))
                   sample_salt (repeat Byte.x07 32) (list_byte_of_string "short") r w'
                   eq_refl eq_refl eq_refl _ _ eq_refl _ _ _ Hrun)).
  - vm_compute. reflexivity.
  - vm_compute. reflexivity.
  - reflexivity.
  - vm_compute. reflexivity.
  - apply Nat.ltb_lt. reflexivity.
Defined.

(** The login [register] leaves running decrypts the challenge with the
    key material [register] derived from the caller's salt: every key it
    imports is that material, whatever salt the challenge carries. *)
Theorem register_followup_uses_registered_key E u s w w1 r2 w2 :
  register E u s w = (Ok tt, w1) ->
  auth_rest E u true (upd_pending [] w1) = (r2, w2) ->
  exists evs, w_trace w2 = (w_trace w1 ++ evs)%list /\
  forall m alg us, In (EvImportKey m alg us) evs ->
    m = reply_body (argon2 E (hash_request (u_password u) s (w_hashParams w))).
Proof.
  intros H Ha.
  destruct (register_ok E u s w w1 H) as (rq & id & tok & _ & _ & _ & Hm & _).
  destruct (auth_rest_reuse_imports E u _ _ _ Ha) as (evs & Ht & Hi).
  exists evs. destruct w1; cbn in Ht, Hm, Hi. split; [exact Ht |].
  intros m alg us Hin. rewrite (Hi m alg us Hin). exact Hm.
Qed.

Lemma register_followup_uses_registered_key_witness :
  exists w1 r2 w2,
    register sample_env sample_user sample_salt registration_then_login_world = (Ok tt, w1) /\
    auth_rest sample_env sample_user true (upd_pending [] w1) = (r2, w2) /\
    exists evs, w_trace w2 = (w_trace w1 ++ evs)%list /\
    forall m alg us, In (EvImportKey m alg us) evs ->
      m = reply_body (argon2 sample_env (hash_request "correct horse" sample_salt
                                           default_hashParams)).
Proof.
  destruct (register sample_env sample_user sample_salt registration_then_login_world)
    as [r w1] eqn:Hrun.
  pose proof Hrun as Hc. vm_compute in Hc. injection Hc as Hr _. subst r.
  destruct (auth_rest sample_env sample_user true (upd_pending [] w1)) as [r2 w2] eqn:Ha.
  exists w1, r2, w2. split; [reflexivity | split; [exact Ha |]].
  exact (register_followup_uses_registered_key sample_env sample_user sample_salt
           registration_then_login_world w1 r2 w2 Hrun Ha).
Defined.

(** [authenticate] sends only two kinds of request: the challenge request,
    which carries the email and the optional one-time code, and the
    submission. The submission goes to the id of the challenge the server
    sent, and its data is the encoded AES-CTR decryption of that
    challenge: the counter is the first 16 bytes of the decoded challenge
    data, the ciphertext the rest, and the key the material in use, which
    is the stored material under reuse and the argon2 hash of the password
    with the challenge's salt and parameters otherwise. *)
Theorem authenticate_submits_decrypted_challenge E u reuse w r w' :
  authenticate E u reuse w = (r, w') ->
  exists evs, w_trace w' = (w_trace w ++ evs)%list /\
  forall rq, In (EvFetch rq) evs ->
    rq = challenge_request E u \/
    exists res rest j c s m cd,
      w_net w = res :: rest /\ body res = BJson j /\ parse_challenge j = Some c /\
      decode E (c_salt c) = Some s /\
      (if reuse then w_authKeyMaterial w
       else reply_body (argon2 E (hash_request (u_password u) s (c_hashParams c)))) = Some m /\
      decode E (c_data c) = Some cd /\
      rq = mkRequest (route E ("/challenge/" ++ c_id c ++ "?action=submit")) "POST"
             [content_type] false
             (Some (JObj [("data", JStr (encode E (aes_ctr E m (firstn 16 cd) 64
                                                          (skipn 16 cd))))])).
Proof.
  intros H. destruct w. run_in H; injection H as <- <-; trace_leaf; in_leaf;
    injection Hin as <-;
    first [ left; reflexivity
          | right; do 7 eexists; repeat split; first [reflexivity | eassumption] ].
Qed.

Lemma authenticate_submits_decrypted_challenge_witness :
  exists r w', authenticate sample_env sample_user false
                 (challenge_then (mkResponse 200 (BJson (JObj [])))) = (r, w') /\
  exists evs, w_trace w' = (w_trace (challenge_then (mkResponse 200 (BJson (JObj [])))) ++ evs)%list /\
  forall rq, In (EvFetch rq) evs ->
    rq = challenge_request sample_env sample_user \/
    rq = mkRequest (route sample_env "/challenge/c1?action=submit") "POST" [content_type] false
           (Some (JObj [("data", JStr "payload")])).
Proof.
  destruct (authenticate sample_env sample_user false
              (challenge_then (mkResponse 200 (BJson (JObj []))))) as [r w'] eqn:Hrun.
  exists r, w'. split; [reflexivity |].
  destruct (authenticate_submits_decrypted_challenge sample_env sample_user false _ r w' Hrun)
    as (evs & Ht & Hf).
  exists evs. split; [exact Ht |]. intros rq Hin.
  destruct (Hf rq Hin) as [-> | (res & rest & j & c & s & m & cd & Hn & Hb & Hp & _ & _ & Hd & ->)];
    [left; reflexivity | right].
  cbn in Hn. injection Hn as <- _. cbn in Hb. injection Hb as <-.
  vm_compute in Hp. injection Hp as <-. cbn in Hd. injection Hd as <-.
  reflexivity.
Defined.

(** A successful [register] consumed the registration response (status
    201) and leaves the session with [String(response.CSRFtoken)] as the
    CSRF token, the user with [response.id], and the derived key in
    [this.authKeyMaterial]. *)
Theorem register_success_session E u s w w1 :
  register E u s w = (Ok tt, w1) ->
  exists res rest j, w_net w = res :: rest /\ status res = 201 /\ body res = BJson j /\
    w_net w1 = rest /\
    w_csrf w1 = Some (js_String (json_field j "CSRFtoken")) /\
    w_user w1 = Some (mkUser (u_email u) (json_field j "id")) /\
    w_authKeyMaterial w1 = reply_body (argon2 E (hash_request (u_password u) s (w_hashParams w))).
Proof.
  intros H. destruct w. run_in H; injection H as <-;
    (do 3 eexists; repeat split; first [reflexivity | eassumption | status_eq]).
Qed.

Lemma register_success_session_witness :
  exists w1, register sample_env sample_user sample_salt registration_world = (Ok tt, w1) /\
  w_csrf w1 = Some "tok".
Proof.
  destruct (register sample_env sample_user sample_salt registration_world) as [r w1] eqn:Hrun.
  pose proof Hrun as Hc. vm_compute in Hc. injection Hc as Hr _. subst r.
  exists w1. split; [reflexivity |].
  destruct (register_success_session sample_env sample_user sample_salt _ w1 Hrun)
    as (res & rest & j & Hn & _ & Hb & _ & Hcs & _).
  cbn in Hn. injection Hn as <- _. cbn in Hb. injection Hb as <-.
  rewrite Hcs. reflexivity.
Defined.

(** A successful [authenticate] reports exactly these progress messages,
    in order: "Requesting authentication challenge", then "Using already
    generated authentication key" or "Generating authentication key",
    "Solving authentication challenge", "Submitting solved challenge" and
    "Successfully authenticated". *)
Theorem authenticate_success_messages E u reuse w w' :
  authenticate E u reuse w = (Ok Success, w') ->
  exists evs, w_trace w' = (w_trace w ++ evs)%list /\
  messages evs = ["Requesting authentication challenge";
                  if reuse then "Using already generated authentication key"
                  else "Generating authentication key";
                  "Solving authentication challenge"; "Submitting solved challenge";
                  "Successfully authenticated"].
Proof.
  intros H. destruct w. destruct reuse; run_in H; injection H as <-; trace_leaf; reflexivity.
Qed.

Lemma authenticate_success_messages_witness :
  exists w', authenticate sample_env sample_user false
               (challenge_then (mkResponse 200 (BJson (JObj [])))) = (Ok Success, w') /\
  exists evs, w_trace w' = (w_trace (challenge_then (mkResponse 200 (BJson (JObj [])))) ++ evs)%list /\
  messages evs = ["Requesting authentication challenge"; "Generating authentication key";
                  "Solving authentication challenge"; "Submitting solved challenge";
                  "Successfully authenticated"].
Proof.
  destruct (authenticate sample_env sample_user false
              (challenge_then (mkResponse 200 (BJson (JObj []))))) as [r w'] eqn:Hrun.
  pose proof Hrun as Hc. vm_compute in Hc. injection Hc as Hr _. subst r.
  exists w'. split; [reflexivity |].
  exact (authenticate_success_messages sample_env sample_user false _ w' Hrun).
Defined.

(** The only thing [retrieveMasterKeypair] writes to the console is the
    wrapped private key string the keys route returned. *)
Theorem retrieve_logs_only_wrapped_key E pw w r w' :
  retrieveMasterKeypair E pw w = (r, w') ->
  exists evs, w_trace w' = (w_trace w ++ evs)%list /\
  forall msg, In (EvConsoleLog msg) evs ->
    exists res rest j k, w_net w = res :: rest /\ body res = BJson j /\
      parse_masterKeys j = Some k /\ msg = mk_privateKey k.
Proof.
  intros H. destruct w. run_in H; injection H as <- <-; trace_leaf; in_leaf;
    injection Hin as <-; do 4 eexists; repeat split; first [reflexivity | eassumption].
Qed.

Lemma retrieve_logs_only_wrapped_key_witness :
  exists r w', retrieveMasterKeypair sample_env "pw" (retrieve_world uploaded_keys_json) = (r, w') /\
  exists evs, w_trace w' = (w_trace (retrieve_world uploaded_keys_json) ++ evs)%list /\
  forall msg, In (EvConsoleLog msg) evs ->
    exists res rest j k, w_net (retrieve_world uploaded_keys_json) = res :: rest /\
      body res = BJson j /\ parse_masterKeys j = Some k /\ msg = mk_privateKey k.
Proof.
  destruct (retrieveMasterKeypair sample_env "pw" (retrieve_world uploaded_keys_json))
    as [r w'] eqn:Hrun.
  exists r, w'. split; [reflexivity |].
  exact (retrieve_logs_only_wrapped_key sample_env "pw" _ r w' Hrun).
Defined.
